(** * BrainDesk: the task store, the settings store and the backup import flow

    A shallow embedding of

    - [features/todo/todoSlice.ts]        (the task reducers),
    - [features/settings/settingsSlice.ts] (the settings reducers and
      [loadSettingsFromStorage]),
    - [components/settings/ImportButton.tsx] ([handleImport]),
    - the callers of the reducers: [DeleteAllButton.tsx], [SubjectManager.tsx],
      [NotificationTimeSelecto.tsx], [hooks/useTheme.ts], the task screen
      [app/(tabs)/todo/index.tsx] and [InlineWeekCalendar.tsx],

    together with the properties the specification states about them and
    further properties read off the code.

    Reducers are written with Immer drafts in the source; here each reducer
    is the pure function from the state before to the state after.  The
    fire-and-forget writes to AsyncStorage ([saveTasks],
    [saveSettingsToStorage]) do not feed back into the in-memory state and
    are left out. *)

From Stdlib Require Import List String ZArith Bool Lia DecimalString.
From Stdlib Require Import Permutation Ascii.
Import ListNotations.
Open Scope string_scope.
Open Scope list_scope.

Set Implicit Arguments.
Set Warnings "-register-all".

(* ====================================================================== *)
(** * Run-time values *)
(* ====================================================================== *)

(** What [JSON.parse] can produce.  Numbers are only ever tested for
    truthiness by this program. *)
Inductive value : Type :=
| VNull
| VBool (b : bool)
| VNum (n : Z)
| VStr (s : string)
| VArr (items : list value)
| VObj (props : list (string * value)).

(** A plain object: its own properties, looked up by the first binding of
    a key.  [None] stands for [undefined]. *)
Definition object : Type := list (string * value).

Fixpoint get (k : string) (o : object) : option value :=
  match o with
  | [] => None
  | (k', v) :: o' => if String.eqb k' k then Some v else get k o'
  end.

(** Assignment [o.k = v]: overwrite the binding where it is, or add one. *)
Fixpoint set (k : string) (v : value) (o : object) : object :=
  match o with
  | [] => [(k, v)]
  | (k', v') :: o' =>
      if String.eqb k' k then (k, v) :: o' else (k', v') :: set k v o'
  end.

Definition truthy (v : option value) : bool :=
  match v with
  | None | Some VNull => false
  | Some (VBool b) => b
  | Some (VNum n) => negb (Z.eqb n 0)
  | Some (VStr s) => negb (String.eqb s "")
  | Some (VArr _) | Some (VObj _) => true
  end.

Definition typeof (v : option value) : string :=
  match v with
  | None => "undefined"
  | Some VNull | Some (VArr _) | Some (VObj _) => "object"
  | Some (VBool _) => "boolean"
  | Some (VNum _) => "number"
  | Some (VStr _) => "string"
  end.

Definition Array_isArray (v : option value) : bool :=
  match v with Some (VArr _) => true | _ => false end.

(** [a === b] where at least one side is a primitive or [undefined].
    Arrays and objects are compared by reference in the source; a parsed
    value never aliases a value of the store, so such a comparison is
    [false]. *)
Definition strict_equal (a b : option value) : bool :=
  match a, b with
  | None, None => true
  | Some VNull, Some VNull => true
  | Some (VBool x), Some (VBool y) => Bool.eqb x y
  | Some (VNum x), Some (VNum y) => Z.eqb x y
  | Some (VStr x), Some (VStr y) => String.eqb x y
  | _, _ => false
  end.

(** [t.k] on a value known not to be [null]: primitives and arrays have no
    such own property for the keys this program reads. *)
Definition member (t : value) (k : string) : option value :=
  match t with
  | VObj o => get k o
  | _ => None
  end.

(** A [Set] of values, in insertion order. *)
Definition Set_has (s : list (option value)) (x : option value) : bool :=
  existsb (strict_equal x) s.

(* ====================================================================== *)
(** * todoSlice.ts *)
(* ====================================================================== *)

(** A task at run time is an object; the declared type [Task] is erased.
    [mergeTasks] stores parsed objects as they come, so only the fields it
    checks are known to be strings. *)
Definition Task : Type := object.

Record TodoState : Type := { tasks : list Task }.

Definition initialState : TodoState := {| tasks := [] |}.

Definition id_is (id : string) (t : Task) : bool :=
  strict_equal (get "id" t) (Some (VStr id)).

Record AddTaskPayload : Type := {
  add_text : string;
  add_subject : string;
  add_priority : string;
  add_createdAt : option string
}.

Record EditTaskPayload : Type := {
  edit_id : string;
  edit_text : string;
  edit_priority : string;
  edit_subject : string
}.

(** [uuid] is the identifier [uuid()] returns and [now] the string
    [new Date().toISOString()] returns at the time of the call. *)
Definition addTask (uuid now : string) (state : TodoState)
    (payload : AddTaskPayload) : TodoState :=
  let newTask : Task :=
    [ ("id", VStr uuid);
      ("text", VStr (add_text payload));
      ("subject", VStr (add_subject payload));
      ("priority", VStr (add_priority payload));
      ("completed", VBool false);
      ("createdAt",
        VStr (match add_createdAt payload with Some c => c | None => now end));
      ("completedAt", VNull);
      ("deletedAt", VNull) ] in
  {| tasks := tasks state ++ [newTask] |}.

(** [const task = list.find(p); if (task) { mutate task }]: the first
    element satisfying [p] is changed in place. *)
Fixpoint update_first (p : Task -> bool) (f : Task -> Task)
    (l : list Task) : list Task :=
  match l with
  | [] => []
  | t :: l' => if p t then f t :: l' else t :: update_first p f l'
  end.

Definition editTask (state : TodoState) (payload : EditTaskPayload)
    : TodoState :=
  {| tasks :=
       update_first (id_is (edit_id payload))
         (fun task =>
            set "subject" (VStr (edit_subject payload))
              (set "priority" (VStr (edit_priority payload))
                 (set "text" (VStr (edit_text payload)) task)))
         (tasks state) |}.

Definition toggleTask (now : string) (state : TodoState) (payload : string)
    : TodoState :=
  {| tasks :=
       update_first (id_is payload)
         (fun task =>
            let completed := negb (truthy (get "completed" task)) in
            set "completedAt" (if completed then VStr now else VNull)
              (set "completed" (VBool completed) task))
         (tasks state) |}.

Definition deleteTask (state : TodoState) (payload : string) : TodoState :=
  {| tasks := filter (fun t => negb (id_is payload t)) (tasks state) |}.

(** The required-string-field check of [mergeTasks] (and of
    [handleImport]). *)
Definition isValidTask (t : value) : bool :=
  truthy (Some t)
  && String.eqb (typeof (member t "id")) "string"
  && String.eqb (typeof (member t "text")) "string"
  && String.eqb (typeof (member t "subject")) "string"
  && String.eqb (typeof (member t "priority")) "string"
  && String.eqb (typeof (member t "createdAt")) "string".

(** The objects among a list of values. *)
Fixpoint objects (l : list value) : list object :=
  match l with
  | [] => []
  | VObj o :: l' => o :: objects l'
  | _ :: l' => objects l'
  end.

Definition mergeTasks (state : TodoState) (payload : list value)
    : TodoState :=
  let incomingTasks := filter isValidTask payload in
  let existingIds := map (get "id") (tasks state) in
  let newTasks :=
    filter (fun t => negb (Set_has existingIds (member t "id")))
      incomingTasks in
  {| tasks := tasks state ++ objects newTasks |}.

(** The new tasks of a merge, as values: the incoming items that pass the
    check and whose identifier no current task has. *)
Definition fresh_valid (current : list Task) (t : value) : bool :=
  isValidTask t && negb (Set_has (map (get "id") current) (member t "id")).

Definition clearTasks (state : TodoState) : TodoState := {| tasks := [] |}.

(** The actions of the task slice and its reducer. *)
Inductive TodoAction : Type :=
| AddTask (payload : AddTaskPayload)
| EditTask (payload : EditTaskPayload)
| ToggleTask (payload : string)
| DeleteTask (payload : string)
| MergeTasks (payload : list value)
| ClearTasks.

Definition todoReducer (uuid now : string) (state : TodoState)
    (a : TodoAction) : TodoState :=
  match a with
  | AddTask p => addTask uuid now state p
  | EditTask p => editTask state p
  | ToggleTask p => toggleTask now state p
  | DeleteTask p => deleteTask state p
  | MergeTasks p => mergeTasks state p
  | ClearTasks => clearTasks state
  end.

(** Identifier uniqueness across the task collection. *)
Definition unique_ids (l : list Task) : Prop := NoDup (map (get "id") l).

(* ====================================================================== *)
(** * settingsSlice.ts: the reducers *)
(* ====================================================================== *)

Inductive ThemeMode : Type := light | dark | system.

Definition ThemeMode_string (m : ThemeMode) : string :=
  match m with
  | light => "light"
  | dark => "dark"
  | system => "system"
  end.

Record SettingsState : Type := {
  themeMode : ThemeMode;
  subjects : list string;
  notificationTime : option string      (* [None] is [null] *)
}.

(** [Partial<SettingsState>]: every field may be absent ([None]).  A
    present [notificationTime] is a string or [null]. *)
Record PartialSettings : Type := {
  p_themeMode : option ThemeMode;
  p_subjects : option (list string);
  p_notificationTime : option (option string)
}.

Definition defaultState : SettingsState :=
  {| themeMode := system;
     subjects := ["Physics"; "Chemistry"; "Math"];
     notificationTime := None |}.

Definition includes (l : list string) (x : string) : bool :=
  existsb (String.eqb x) l.

(** [new Set(l)] followed by [Array.from]: a [Set] keeps the first
    occurrence of each element, in insertion order. *)
Definition Set_add (s : list string) (x : string) : list string :=
  if includes s x then s else s ++ [x].

Definition new_Set (l : list string) : list string := fold_left Set_add l [].

Definition Array_from (s : list string) : list string := s.

Definition setThemeMode (state : SettingsState) (payload : ThemeMode)
    : SettingsState :=
  {| themeMode := payload;
     subjects := subjects state;
     notificationTime := notificationTime state |}.

Definition addSubject (state : SettingsState) (payload : string)
    : SettingsState :=
  if negb (includes (subjects state) payload)
  then {| themeMode := themeMode state;
          subjects := subjects state ++ [payload];
          notificationTime := notificationTime state |}
  else state.

Definition deleteSubject (state : SettingsState) (payload : string)
    : SettingsState :=
  {| themeMode := themeMode state;
     subjects :=
       filter (fun subject => negb (String.eqb subject payload))
         (subjects state);
     notificationTime := notificationTime state |}.

Definition setNotificationTime (state : SettingsState)
    (payload : option string) : SettingsState :=
  {| themeMode := themeMode state;
     subjects := subjects state;
     notificationTime := payload |}.

Definition loadSettings (state : SettingsState) (payload : PartialSettings)
    : SettingsState :=
  {| themeMode :=
       match p_themeMode payload with
       | Some m => m
       | None => themeMode state
       end;
     subjects :=
       match p_subjects payload with
       | Some l => l
       | None => subjects state
       end;
     notificationTime :=
       match p_notificationTime payload with
       | Some t => t
       | None => notificationTime state
       end |}.

Definition mergeSettings (state : SettingsState) (incoming : PartialSettings)
    : SettingsState :=
  {| themeMode :=
       match p_themeMode incoming with
       | Some m =>
           if truthy (Some (VStr (ThemeMode_string m)))
           then m else themeMode state
       | None => themeMode state
       end;
     subjects :=
       match p_subjects incoming with
       | Some l => Array_from (new_Set (subjects state ++ l))
       | None => subjects state
       end;
     notificationTime :=
       match p_notificationTime incoming with
       | Some t => t
       | None => notificationTime state
       end |}.

Definition clearSettings (state : SettingsState) : SettingsState :=
  {| themeMode := system;
     subjects := ["Physics"; "Chemistry"; "Math"];
     notificationTime := None |}.

Inductive SettingsAction : Type :=
| SetThemeMode (payload : ThemeMode)
| AddSubject (payload : string)
| DeleteSubject (payload : string)
| SetNotificationTime (payload : option string)
| LoadSettings (payload : PartialSettings)
| MergeSettings (payload : PartialSettings)
| ClearSettings.

Definition settingsReducer (state : SettingsState) (a : SettingsAction)
    : SettingsState :=
  match a with
  | SetThemeMode p => setThemeMode state p
  | AddSubject p => addSubject state p
  | DeleteSubject p => deleteSubject state p
  | SetNotificationTime p => setNotificationTime state p
  | LoadSettings p => loadSettings state p
  | MergeSettings p => mergeSettings state p
  | ClearSettings => clearSettings state
  end.

(* ====================================================================== *)
(** * Host calls, exceptions and the store *)
(* ====================================================================== *)

(** A thrown [Error]; the program only reads its [message]. *)
Record Error : Type := { message : string }.

Inductive result (A : Type) : Type :=
| Return (a : A)
| Throw (e : Error).

Arguments Return {A} a.
Arguments Throw {A} e.

Record Asset : Type := { uri : string }.

Record DocumentPickerResult : Type := {
  canceled : bool;
  assets : option (list Asset)
}.

(** The outcome of every call into the platform made while one event is
    handled.  [as_PartialSettings] is TypeScript's unchecked passage from
    [any] to [Partial<SettingsState>] at [mergeSettings(parsed.settings)];
    [TypeError_of_null k] is what reading property [k] of [null] throws. *)
Record Host : Type := {
  AsyncStorage_getItem : string -> result (option string);
  DocumentPicker_getDocumentAsync : result DocumentPickerResult;
  FileSystem_readAsStringAsync : string -> result string;
  JSON_parse : string -> result value;
  TypeError_of_null : string -> Error;
  as_PartialSettings : value -> PartialSettings;
  uuid : string;
  Date_toISOString : string
}.

Module STORAGE_KEYS.

Definition TASKS : string := "braindesk:tasks".

Definition SETTINGS : string := "braindesk:settings".

End STORAGE_KEYS.

Record RootState : Type := {
  todo : TodoState;
  settings : SettingsState
}.

Inductive Action : Type :=
| todo_action (a : TodoAction)
| settings_action (a : SettingsAction).

Definition rootReducer (H : Host) (s : RootState) (a : Action) : RootState :=
  match a with
  | todo_action a' =>
      {| todo := todoReducer (uuid H) (Date_toISOString H) (todo s) a';
         settings := settings s |}
  | settings_action a' =>
      {| todo := todo s; settings := settingsReducer (settings s) a' |}
  end.

Inductive AlertType : Type := success | warning | error.

(** The four [useState] cells of [ImportButton]. *)
Record AlertState : Type := {
  modalVisible : bool;
  alertTitle : string;
  alertMessage : string;
  alertType : AlertType
}.

(** What an event handler can change: the store, the actions it has
    dispatched so far, and the alert shown. *)
Record World : Type := {
  store : RootState;
  dispatched : list Action;
  alert : AlertState
}.

(** Computations that may throw and that change the world as they go;
    what was changed before a throw stays changed. *)
Definition M (A : Type) : Type := World -> result A * World.

Definition ret {A} (a : A) : M A := fun w => (Return a, w).

Definition throw {A} (e : Error) : M A := fun w => (Throw e, w).

Definition bind {A B} (c : M A) (k : A -> M B) : M B :=
  fun w =>
    match c w with
    | (Return a, w') => k a w'
    | (Throw e, w') => (Throw e, w')
    end.

Definition lift {A} (r : result A) : M A := fun w => (r, w).

Definition try_catch (body : M unit) (handler : Error -> M unit) : M unit :=
  fun w =>
    match body w with
    | (Return tt, w') => (Return tt, w')
    | (Throw e, w') => handler e w'
    end.

Notation "x <- c ;; k" := (bind c (fun x => k))
  (at level 61, c at next level, right associativity).
Notation "c ;;; k" := (bind c (fun _ => k))
  (at level 61, right associativity).

(** [o.k] on any value: reading a property of [null] throws. *)
Definition property (H : Host) (o : value) (k : string)
    : result (option value) :=
  match o with
  | VNull => Throw (TypeError_of_null H k)
  | _ => Return (member o k)
  end.

(* ====================================================================== *)
(** * settingsSlice.ts: loadSettingsFromStorage *)
(* ====================================================================== *)

(** A settings state as the object it is at run time. *)
Definition SettingsState_object (s : SettingsState) : object :=
  [ ("themeMode", VStr (ThemeMode_string (themeMode s)));
    ("subjects", VArr (map VStr (subjects s)));
    ("notificationTime",
      match notificationTime s with Some t => VStr t | None => VNull end) ].

Definition result_bind {A B} (r : result A) (k : A -> result B) : result B :=
  match r with
  | Return a => k a
  | Throw e => Throw e
  end.

(** The body of the [try] block. *)
Definition loadSettingsFromStorage_try (H : Host) : result object :=
  result_bind (AsyncStorage_getItem H STORAGE_KEYS.SETTINGS) (fun json =>
  result_bind
    (match json with
     | Some j => if negb (String.eqb j "") then JSON_parse H j
                 else Return (VObj [])
     | None => Return (VObj [])
     end) (fun parsed =>
  result_bind (property H parsed "themeMode") (fun parsed_themeMode =>
  result_bind (property H parsed "subjects") (fun parsed_subjects =>
  result_bind (property H parsed "notificationTime")
    (fun parsed_notificationTime =>
  Return
    [ ("themeMode",
        match parsed_themeMode with
        | None | Some VNull => VStr (ThemeMode_string (themeMode defaultState))
        | Some v => v
        end);
      ("subjects",
        match parsed_subjects with
        | Some (VArr l) => VArr l
        | _ => VArr (map VStr (subjects defaultState))
        end);
      ("notificationTime",
        match parsed_notificationTime with
        | Some (VStr t) => VStr t
        | _ => match notificationTime defaultState with
               | Some t => VStr t
               | None => VNull
               end
        end) ]))))).

Definition loadSettingsFromStorage (H : Host) : result object :=
  match loadSettingsFromStorage_try H with
  | Return r => Return r
  | Throw err => Return (SettingsState_object defaultState)
  end.

(* ====================================================================== *)
(** * ImportButton.tsx: handleImport *)
(* ====================================================================== *)

Definition showAlert (type : AlertType) (title message : string) : M unit :=
  fun w =>
    (Return tt,
     {| store := store w;
        dispatched := dispatched w;
        alert := {| modalVisible := true;
                    alertTitle := title;
                    alertMessage := message;
                    alertType := type |} |}).

Definition dispatch (H : Host) (a : Action) : M unit :=
  fun w =>
    (Return tt,
     {| store := rootReducer H (store w) a;
        dispatched := dispatched w ++ [a];
        alert := alert w |}).

(** [useAppSelector(state => state.todo.tasks)]. *)
Definition currentTasks : M (list Task) :=
  fun w => (Return (tasks (todo (store w))), w).

Definition elements (v : option value) : list value :=
  match v with Some (VArr l) => l | _ => [] end.

Definition template_length (n : nat) : string :=
  NilEmpty.string_of_uint (Nat.to_uint n).

Definition handleImport_try (H : Host) : M unit :=
  result <- lift (DocumentPicker_getDocumentAsync H) ;;
  if canceled result
     || match assets result with
        | None => true
        | Some l => Nat.eqb (List.length l) 0
        end
  then ret tt
  else
  match assets result with
  | Some (file :: _) =>
      content <- lift (FileSystem_readAsStringAsync H (uri file)) ;;
      parsed <- lift (JSON_parse H content) ;;
      parsed_tasks <- lift (property H parsed "tasks") ;;
      if negb (Array_isArray parsed_tasks)
      then throw {| message := "Invalid format: 'tasks' array missing." |}
      else
      parsed_settings <- lift (property H parsed "settings") ;;
      if negb (String.eqb (typeof parsed_settings) "object")
         || strict_equal parsed_settings (Some VNull)
      then throw {| message := "Invalid format: 'settings' object missing." |}
      else
      let validTasks := filter isValidTask (elements parsed_tasks) in
      current <- currentTasks ;;
      let existingIds := map (get "id") current in
      let newTasks :=
        filter (fun t => negb (Set_has existingIds (member t "id")))
          validTasks in
      if Nat.eqb (List.length newTasks) 0
      then showAlert warning "Nothing to Import"
             "No new tasks found to merge."
      else
        dispatch H (todo_action (MergeTasks validTasks)) ;;;
        dispatch H
          (settings_action
             (MergeSettings
                (as_PartialSettings H
                   (match parsed_settings with
                    | Some v => v
                    | None => VNull
                    end)))) ;;;
        showAlert success "Import Successful"
          (template_length (List.length newTasks) ++ " new tasks merged.")%string
  | _ => ret tt
  end.

Definition handleImport (H : Host) : M unit :=
  try_catch (handleImport_try H)
    (fun err =>
       showAlert error "Import Failed"
         (if negb (String.eqb (message err) "") then message err
          else "Could not import data.")).

(* ====================================================================== *)
(** * Outcomes of the import flow *)
(* ====================================================================== *)

(** The test [handleImport] applies to [parsed.settings]: [typeof] says
    ["object"] and the value is not [null].  Arrays are objects to
    [typeof]. *)
Definition is_object (v : option value) : bool :=
  String.eqb (typeof v) "object" && negb (strict_equal v (Some VNull)).

(** The user picked a file and its text was read. *)
Definition picks_file (H : Host) (content : string) : Prop :=
  exists picked file rest,
    DocumentPicker_getDocumentAsync H = Return picked
    /\ canceled picked = false
    /\ assets picked = Some (file :: rest)
    /\ FileSystem_readAsStringAsync H (uri file) = Return content.

(** The text is not JSON, or its [tasks] is not an array, or its
    [settings] is not an object. *)
Definition bad_backup (H : Host) (content : string) : Prop :=
  (exists e, JSON_parse H content = Throw e)
  \/ (exists parsed,
        JSON_parse H content = Return parsed
        /\ Array_isArray (member parsed "tasks") = false)
  \/ (exists parsed,
        JSON_parse H content = Return parsed
        /\ is_object (member parsed "settings") = false).

(** The user picked a backup: a JSON document with a [tasks] array and a
    [settings] object. *)
Definition picks_backup (H : Host) (backup_tasks : list value)
    (backup_settings : value) : Prop :=
  exists content parsed,
    picks_file H content
    /\ JSON_parse H content = Return parsed
    /\ member parsed "tasks" = Some (VArr backup_tasks)
    /\ member parsed "settings" = Some backup_settings
    /\ is_object (Some backup_settings) = true.

(** The alert after an import that found nothing new, and after one that
    merged [n] new tasks. *)
Definition nothing_to_import : AlertState :=
  {| modalVisible := true;
     alertTitle := "Nothing to Import";
     alertMessage := "No new tasks found to merge.";
     alertType := warning |}.

Definition import_successful (n : nat) : AlertState :=
  {| modalVisible := true;
     alertTitle := "Import Successful";
     alertMessage := (template_length n ++ " new tasks merged.")%string;
     alertType := success |}.

Definition import_failed (err : Error) : AlertState :=
  {| modalVisible := true;
     alertTitle := "Import Failed";
     alertMessage := if negb (String.eqb (message err) "") then message err
                     else "Could not import data.";
     alertType := error |}.

(** Every valid task of the backup carries an identifier that a current
    task has. *)
Definition all_known (current : list Task) (backup_tasks : list value)
    : Prop :=
  forall t, In t backup_tasks -> isValidTask t = true ->
    exists t0, In t0 current /\ get "id" t0 = member t "id".

(* ====================================================================== *)
(** * Example data *)
(* ====================================================================== *)

(** Two entries of one backup that share an identifier. *)
Definition twin (text : string) : value :=
  VObj [ ("id", VStr "a"); ("text", VStr text); ("subject", VStr "Math");
         ("priority", VStr "High"); ("createdAt", VStr "2025-07-11") ].

Definition ThemeMode_of_string (s : string) : option ThemeMode :=
  if String.eqb s "light" then Some light
  else if String.eqb s "dark" then Some dark
  else if String.eqb s "system" then Some system
  else None.

Fixpoint strings (l : list value) : option (list string) :=
  match l with
  | [] => Some []
  | VStr s :: l' =>
      match strings l' with Some r => Some (s :: r) | None => None end
  | _ :: _ => None
  end.

(** Reading a parsed object of the declared shape as a
    [Partial<SettingsState>]. *)
Definition decode_settings (v : value) : PartialSettings :=
  {| p_themeMode :=
       match member v "themeMode" with
       | Some (VStr s) => ThemeMode_of_string s
       | _ => None
       end;
     p_subjects :=
       match member v "subjects" with
       | Some (VArr l) => strings l
       | _ => None
       end;
     p_notificationTime :=
       match member v "notificationTime" with
       | Some (VStr t) => Some (Some t)
       | Some VNull => Some None
       | _ => None
       end |}.

(** A host on which the user picks one file, whose text [JSON.parse]
    treats as [parse] says. *)
Definition picking_host (parse : string -> result value) : Host :=
  {| AsyncStorage_getItem := fun _ => Return None;
     DocumentPicker_getDocumentAsync :=
       Return {| canceled := false;
                 assets := Some [ {| uri := "file:///cache/backup.json" |} ] |};
     FileSystem_readAsStringAsync := fun _ => Return "backup.json";
     JSON_parse := parse;
     TypeError_of_null :=
       fun k => {| message := "Cannot read property '" ++ k ++ "' of null" |};
     as_PartialSettings := decode_settings;
     uuid := "3b241101-e2bb-4255-8caf-4136c566a962";
     Date_toISOString := "2025-07-12T09:00:00.000Z" |}.

Definition stored_task (id text : string) : Task :=
  [ ("id", VStr id); ("text", VStr text); ("subject", VStr "Physics");
    ("priority", VStr "High"); ("completed", VBool false);
    ("createdAt", VStr "2025-07-11T08:00:00.000Z");
    ("completedAt", VNull); ("deletedAt", VNull) ].

Definition backup_of (backup_tasks : list value) : value :=
  VObj [ ("tasks", VArr backup_tasks);
         ("settings",
           VObj [ ("themeMode", VStr "dark");
                  ("subjects", VArr [VStr "Physics"; VStr "Biology"]);
                  ("notificationTime", VStr "07:00") ]) ].

Definition not_json_host : Host :=
  picking_host
    (fun _ => Throw {| message := "JSON Parse error: Unexpected token: b" |}).

Definition known_backup_host : Host :=
  picking_host (fun _ => Return (backup_of [VObj (stored_task "t1" "Read")])).

Definition new_backup_host : Host :=
  picking_host
    (fun _ =>
       Return (backup_of [ VObj (stored_task "t1" "Read");
                           VObj (stored_task "t2" "Write") ])).

(** A backup whose [settings] is an array. *)
Definition array_settings_host : Host :=
  picking_host
    (fun _ =>
       Return (VObj [ ("tasks", VArr [VObj (stored_task "t2" "Write")]);
                      ("settings", VArr []) ])).

(** A backup with two entries under one identifier. *)
Definition twins_host : Host :=
  picking_host
    (fun _ =>
       Return (VObj [ ("tasks", VArr [twin "one"; twin "two"]);
                      ("settings", VObj []) ])).

(** What the tests of [loadSettingsFromStorage] store. *)
Definition storage_host (stored : option string)
    (parse : string -> result value) : Host :=
  {| AsyncStorage_getItem := fun _ => Return stored;
     DocumentPicker_getDocumentAsync :=
       Return {| canceled := true; assets := None |};
     FileSystem_readAsStringAsync := fun _ => Return "";
     JSON_parse := parse;
     TypeError_of_null :=
       fun k => {| message := "Cannot read property '" ++ k ++ "' of null" |};
     as_PartialSettings := decode_settings;
     uuid := "3b241101-e2bb-4255-8caf-4136c566a962";
     Date_toISOString := "2025-07-12T09:00:00.000Z" |}.

Definition empty_world : World :=
  {| store := {| todo := initialState; settings := defaultState |};
     dispatched := [];
     alert := {| modalVisible := false; alertTitle := "";
                 alertMessage := ""; alertType := success |} |}.

(** A host whose picker fails. *)
Definition broken_picker_host : Host :=
  {| AsyncStorage_getItem := fun _ => Return None;
     DocumentPicker_getDocumentAsync :=
       Throw {| message := "Document picker is unavailable" |};
     FileSystem_readAsStringAsync := fun _ => Return "";
     JSON_parse := fun _ => Return VNull;
     TypeError_of_null :=
       fun k => {| message := "Cannot read property '" ++ k ++ "' of null" |};
     as_PartialSettings := decode_settings;
     uuid := "3b241101-e2bb-4255-8caf-4136c566a962";
     Date_toISOString := "2025-07-12T09:00:00.000Z" |}.

Definition closed_alert : AlertState :=
  {| modalVisible := false; alertTitle := ""; alertMessage := "";
     alertType := success |}.

Definition one_task_world : World :=
  {| store := {| todo := {| tasks := [stored_task "t1" "Read"] |};
                 settings := defaultState |};
     dispatched := [];
     alert := closed_alert |}.

(* ====================================================================== *)
(** * Callers of the reducers *)
(* ====================================================================== *)

(** Every task of a collection passes the required-string-field check. *)
Definition all_valid (l : list Task) : Prop :=
  forall t, In t l -> isValidTask (VObj t) = true.

(** DeleteAllButton.tsx: what [confirmDelete] does to the store and to the
    two modals of the button. *)
Module DeleteAllButton.

Record Modals : Type := {
  modalVisible : bool;
  successVisible : bool
}.

Definition confirmDelete (H : Host) (s : RootState) (m : Modals)
    : RootState * Modals :=
  let s1 := rootReducer H s (todo_action ClearTasks) in
  let s2 := rootReducer H s1 (settings_action ClearSettings) in
  (s2, {| modalVisible := false; successVisible := true |}).

End DeleteAllButton.

(** hooks/useTheme.ts.  Only which of the two theme objects comes back
    matters here. *)
Inductive Theme : Type := LightTheme | DarkTheme.

Definition isDark (t : Theme) : bool :=
  match t with
  | LightTheme => false
  | DarkTheme => true
  end.

(** [colorScheme] is what [Appearance.getColorScheme()] returns, [None]
    for [null] or [undefined]. *)
Definition useTheme (userPreference : ThemeMode) (colorScheme : option string)
    : Theme :=
  let systemScheme :=
    match colorScheme with
    | Some c => if String.eqb c "dark" then "dark" else "light"
    | None => "light"
    end in
  let finalScheme :=
    if String.eqb (ThemeMode_string userPreference) "system"
    then systemScheme
    else ThemeMode_string userPreference in
  if String.eqb finalScheme "dark" then DarkTheme else LightTheme.

(** app/(tabs)/todo/index.tsx: the task list of the selected day under the
    three filters.  [isSame created day] is
    [dayjs(created).isSame(day, "day")]. *)
Record Filters : Type := {
  selectedDate : string;
  filterPriority : string;
  filterSubject : string;
  filterStatus : string
}.

Definition shown (isSame : option value -> string -> bool) (f : Filters)
    (task : Task) : bool :=
  let isSameDate := isSame (get "createdAt" task) (selectedDate f) in
  let matchPriority :=
    String.eqb (filterPriority f) "All"
    || strict_equal (get "priority" task) (Some (VStr (filterPriority f))) in
  let matchSubject :=
    String.eqb (filterSubject f) "All"
    || strict_equal (get "subject" task) (Some (VStr (filterSubject f))) in
  let matchStatus :=
    String.eqb (filterStatus f) "All"
    || (String.eqb (filterStatus f) "Completed"
        && truthy (get "completed" task))
    || (String.eqb (filterStatus f) "Pending"
        && negb (truthy (get "completed" task))) in
  isSameDate && matchPriority && matchSubject && matchStatus.

Definition filteredTasks (isSame : option value -> string -> bool)
    (f : Filters) (l : list Task) : list Task :=
  filter (shown isSame f) l.

Definition hasTasksForSelectedDate (isSame : option value -> string -> bool)
    (f : Filters) (l : list Task) : bool :=
  existsb (fun task => isSame (get "createdAt" task) (selectedDate f)) l.

(** The filters [f] with another status chosen. *)
Definition with_status (f : Filters) (status : string) : Filters :=
  {| selectedDate := selectedDate f;
     filterPriority := filterPriority f;
     filterSubject := filterSubject f;
     filterStatus := status |}.

(** A day test for the examples: the creation stamp starts with the day. *)
Definition same_day_prefix (created : option value) (day : string) : bool :=
  match created with
  | Some (VStr c) => String.eqb (substring 0 (String.length day) c) day
  | _ => false
  end.

(* ====================================================================== *)
(** * NotificationTimeSelecto.tsx *)
(* ====================================================================== *)

(** [n.toString()] for a natural number. *)
Definition Number_toString (n : nat) : string :=
  NilEmpty.string_of_uint (Nat.to_uint n).

(** [s.padStart(2, "0")]. *)
Definition padStart2 (s : string) : string :=
  match String.length s with
  | 0 => "00"
  | 1 => ("0" ++ s)%string
  | _ => s
  end.

(** The string [handleConfirm] stores for a picked time; [hours] and
    [minutes] are what [getHours()] and [getMinutes()] return. *)
Definition timeStr (hours minutes : nat) : string :=
  (padStart2 (Number_toString hours) ++ ":"
   ++ padStart2 (Number_toString minutes))%string.

(** [handleConfirm] on the settings: a picked time is stored, a dismissed
    picker ([selectedTime] undefined) stores nothing. *)
Definition handleConfirm (selectedTime : option (nat * nat))
    (state : SettingsState) : SettingsState :=
  match selectedTime with
  | Some (hours, minutes) =>
      setNotificationTime state (Some (timeStr hours minutes))
  | None => state
  end.

(** [s.split(":")]: never empty. *)
Fixpoint split_colon (s : string) : list string :=
  match s with
  | EmptyString => [""]
  | String c s' =>
      if Ascii.eqb c ":"%char then "" :: split_colon s'
      else match split_colon s' with
           | part :: parts => String c part :: parts
           | [] => [String c ""]
           end
  end.

Definition is_white_space (c : Ascii.ascii) : bool :=
  let n := Ascii.nat_of_ascii c in
  (Nat.leb 9 n && Nat.leb n 13) || Nat.eqb n 32.

Fixpoint skip_white_space (s : string) : string :=
  match s with
  | String c s' => if is_white_space c then skip_white_space s' else s
  | EmptyString => s
  end.

Definition digit_of (c : Ascii.ascii) : option Z :=
  let n := Ascii.nat_of_ascii c in
  if Nat.leb 48 n && Nat.leb n 57 then Some (Z.of_nat (n - 48)) else None.

(** The value of the longest prefix of decimal digits; [None] (for [NaN])
    when there is none. *)
Fixpoint digits_value (acc : option Z) (s : string) : option Z :=
  match s with
  | EmptyString => acc
  | String c s' =>
      match digit_of c with
      | Some d =>
          digits_value
            (Some (10 * match acc with Some a => a | None => 0 end + d)%Z) s'
      | None => acc
      end
  end.

(** [parseInt(s, 10)] on strings of ASCII characters; [None] is [NaN].
    The source computes with doubles, which are these integers below
    2^53. *)
Definition parseInt10 (s : string) : option Z :=
  match skip_white_space s with
  | String "-"%char s' => option_map Z.opp (digits_value None s')
  | String "+"%char s' => digits_value None s'
  | s' => digits_value None s'
  end.

(** The number in a template string. *)
Definition Z_toString (z : Z) : string := NilZero.string_of_int (Z.to_int z).

Definition formatTime (currentTime : option string) : string :=
  match currentTime with
  | None => "Off"
  | Some t =>
      if String.eqb t "" then "Off"
      else
        let parts := split_colon t in
        let hh := hd "" parts in
        let mm := nth_error parts 1 in
        let hour := parseInt10 hh in
        let ampm :=
          match hour with
          | Some h => if (12 <=? h)%Z then "PM" else "AM"
          | None => "AM"
          end in
        let formattedHour :=
          match hour with
          | Some h => if (Z.rem h 12 =? 0)%Z then 12%Z else Z.rem h 12
          | None => 12%Z
          end in
        (Z_toString formattedHour ++ ":"
         ++ match mm with Some m => m | None => "undefined" end
         ++ " " ++ ampm)%string
  end.

(** What the reminder row should read for a time of day. *)
Definition twelve_hour (hours minutes : nat) : string :=
  (Number_toString (if Nat.eqb (hours mod 12) 0 then 12 else hours mod 12)
   ++ ":" ++ padStart2 (Number_toString minutes) ++ " "
   ++ (if Nat.ltb hours 12 then "AM" else "PM"))%string.

(* ====================================================================== *)
(** * The forms: SubjectManager.tsx and the task screen *)
(* ====================================================================== *)

(** [!!s] for a string. *)
Definition nonempty (s : string) : bool := negb (String.eqb s "").

(** SubjectManager.tsx.  [trim] is [String.prototype.trim]; the result is
    the settings and the text left in the input. *)
Module SubjectManager.

Definition handleAdd (trim : string -> string) (newSubject : string)
    (state : SettingsState) : SettingsState * string :=
  let trimmed := trim newSubject in
  if nonempty trimmed && negb (includes (subjects state) trimmed)
  then (addSubject state trimmed, "")
  else (state, newSubject).

Definition handleDelete (item : string) (state : SettingsState)
    : SettingsState :=
  deleteSubject state item.

End SubjectManager.

(** app/(tabs)/todo/index.tsx: the form behind the task modal.  The edit
    payload of the source also carries [completed] and [createdAt], which
    [editTask] does not read. *)
Module TodoScreen.

Record Form : Type := {
  title : string;
  subject : string;
  priority : string;
  isEditing : bool;
  editId : option string;
  selectedDate : string;
  modalVisible : bool;
  alertVisible : bool
}.

Definition handleCloseModal (f : Form) : Form :=
  {| title := "";
     subject := subject f;
     priority := priority f;
     isEditing := false;
     editId := None;
     selectedDate := selectedDate f;
     modalVisible := false;
     alertVisible := alertVisible f |}.

Definition handleAddTask (trim : string -> string) (H : Host) (f : Form)
    (s : RootState) : RootState * Form :=
  if negb (nonempty (trim (title f)))
     || negb (nonempty (subject f))
     || negb (nonempty (priority f))
  then
    (s,
     {| title := title f;
        subject := subject f;
        priority := priority f;
        isEditing := isEditing f;
        editId := editId f;
        selectedDate := selectedDate f;
        modalVisible := modalVisible f;
        alertVisible := true |})
  else
    let add :=
      AddTask {| add_text := trim (title f);
                 add_subject := subject f;
                 add_priority := priority f;
                 add_createdAt := Some (selectedDate f) |} in
    let action :=
      match editId f with
      | Some id =>
          if isEditing f && nonempty id
          then EditTask {| edit_id := id;
                           edit_text := trim (title f);
                           edit_priority := priority f;
                           edit_subject := subject f |}
          else add
      | None => add
      end in
    (rootReducer H s (todo_action action), handleCloseModal f).

End TodoScreen.

(** A task whose text, subject and priority are strings that are not
    empty. *)
Definition filled (t : Task) : Prop :=
  (exists s, get "text" t = Some (VStr s) /\ s <> "")
  /\ (exists s, get "subject" t = Some (VStr s) /\ s <> "")
  /\ (exists s, get "priority" t = Some (VStr s) /\ s <> "").

(** Dropping the blanks at both ends, for the examples. *)
Fixpoint drop_trailing_blanks (s : string) : string :=
  match s with
  | EmptyString => EmptyString
  | String c s' =>
      match drop_trailing_blanks s' with
      | EmptyString => if is_white_space c then EmptyString
                       else String c EmptyString
      | rest => String c rest
      end
  end.

Definition trim_blanks (s : string) : string :=
  drop_trailing_blanks (skip_white_space s).

(* ====================================================================== *)
(** * InlineWeekCalendar.tsx: the weeks of the calendar strip *)
(* ====================================================================== *)

(** A day is the number of its date counted from some Monday, so that
    Mondays are the multiples of 7; the time of day the library carries
    along plays no part in what follows. *)
Definition startOf_isoWeek (d : Z) : Z := (d - d mod 7)%Z.

(** [Array.from({ length: 7 }, (_, j) => start.add(j, "day"))]. *)
Definition week_from (start : Z) : list Z :=
  map (fun j => (start + Z.of_nat j)%Z) (seq 0 7).

(** The five weeks built on mount, from two before to two after the week
    of today. *)
Definition initial_weeks (today : Z) : list (list Z) :=
  let base := startOf_isoWeek today in
  map (fun i => week_from (base + 7 * i)%Z) [-2; -1; 0; 1; 2]%Z.

(** [weeks.findIndex(week => week.some(d => d.isSame(today, "day")))];
    [None] for -1. *)
Fixpoint findIndex_of_day (today : Z) (weeks : list (list Z)) : option nat :=
  match weeks with
  | [] => None
  | week :: rest =>
      if existsb (Z.eqb today) week then Some 0
      else option_map S (findIndex_of_day today rest)
  end.

Inductive Direction : Type := left_side | right_side.

(** [loadMoreWeeks]: the new list of weeks and the new [currentIndex].
    [None] where the source reads a day of a week that is not there and
    throws. *)
Definition loadMoreWeeks (direction : Direction) (weeks : list (list Z))
    (currentIndex : nat) : option (list (list Z) * nat) :=
  match direction with
  | left_side =>
      match weeks with
      | (d :: _) :: _ =>
          let first := startOf_isoWeek (d - 2 * 7)%Z in
          let newWeeks := [week_from first; week_from (first + 7)%Z] in
          Some (newWeeks ++ weeks, currentIndex + 2)
      | _ => None
      end
  | right_side =>
      match last weeks [] with
      | d :: _ =>
          let last := startOf_isoWeek (d + 7)%Z in
          let newWeeks := [week_from last; week_from (last + 7)%Z] in
          Some (weeks ++ newWeeks, currentIndex)
      | [] => None
      end
  end.

(** [n] weeks in a row from the Monday [start]. *)
Definition weeks_from (start : Z) (n : nat) : list (list Z) :=
  map (fun i => week_from (start + 7 * Z.of_nat i)%Z) (seq 0 n).

(* ====================================================================== *)
(** * Properties of objects and of the value tests *)
(* ====================================================================== *)

Lemma get_set_same (k : string) (v : value) (o : object) :
  get k (set k v o) = Some v.
Proof.
  induction o as [|[k' v'] o IH]; simpl.
  - now rewrite String.eqb_refl.
  - destruct (String.eqb k' k) eqn:E; simpl.
    + now rewrite String.eqb_refl.
    + now rewrite E.
Qed.

Lemma get_set_other (k k' : string) (v : value) (o : object) :
  k <> k' -> get k' (set k v o) = get k' o.
Proof.
  intros Hne.
  induction o as [|[k0 v0] o IH]; simpl.
  - destruct (String.eqb k k') eqn:E; [|reflexivity].
    apply String.eqb_eq in E. contradiction.
  - destruct (String.eqb k0 k) eqn:E; simpl.
    + apply String.eqb_eq in E. subst k0.
      destruct (String.eqb k k') eqn:E'; [|reflexivity].
      apply String.eqb_eq in E'. contradiction.
    + now rewrite IH.
Qed.

Lemma strict_equal_string (x : option value) (s : string) :
  strict_equal x (Some (VStr s)) = true <-> x = Some (VStr s).
Proof.
  split.
  - destruct x as [[|b|n|s'|l|o]|]; simpl; try discriminate.
    intros E. apply String.eqb_eq in E. now subst.
  - intros ->. simpl. apply String.eqb_refl.
Qed.

Lemma strict_equal_string_l (x : option value) (s : string) :
  strict_equal (Some (VStr s)) x = true <-> x = Some (VStr s).
Proof.
  split.
  - destruct x as [[|b|n|s'|l|o]|]; simpl; try discriminate.
    intros E. apply String.eqb_eq in E. now subst.
  - intros ->. simpl. apply String.eqb_refl.
Qed.

Lemma id_is_true (id : string) (t : Task) :
  id_is id t = true <-> get "id" t = Some (VStr id).
Proof. apply strict_equal_string. Qed.

Lemma Set_has_string (s : list (option value)) (k : string) :
  Set_has s (Some (VStr k)) = true <-> In (Some (VStr k)) s.
Proof.
  unfold Set_has. rewrite existsb_exists. split.
  - intros [x [Hin E]]. apply strict_equal_string_l in E. now subst.
  - intros Hin. exists (Some (VStr k)). split; [assumption|].
    now apply strict_equal_string_l.
Qed.

Lemma typeof_string (x : option value) :
  String.eqb (typeof x) "string" = true <-> exists s, x = Some (VStr s).
Proof.
  split.
  - destruct x as [[|b|n|s|l|o]|]; simpl; try discriminate.
    intros _. now exists s.
  - intros [s ->]. reflexivity.
Qed.

(** What passes the required-string-field check: an object whose five
    required properties are strings. *)
Lemma isValidTask_true (t : value) :
  isValidTask t = true <->
  exists o, t = VObj o /\
    (exists s, get "id" o = Some (VStr s)) /\
    (exists s, get "text" o = Some (VStr s)) /\
    (exists s, get "subject" o = Some (VStr s)) /\
    (exists s, get "priority" o = Some (VStr s)) /\
    (exists s, get "createdAt" o = Some (VStr s)).
Proof.
  unfold isValidTask. rewrite !andb_true_iff, !typeof_string. split.
  - intros [[[[[_ Hid] Htx] Hsu] Hpr] Hcr].
    destruct t as [|b|n|s0|l|o];
      try (destruct Hid as [s Hs]; simpl in Hs; discriminate).
    exists o. now repeat split.
  - intros [o [-> [Hid [Htx [Hsu [Hpr Hcr]]]]]]. now repeat split.
Qed.

(** Taking the objects loses nothing of a list of valid tasks. *)
Lemma objects_lossless (l : list value) :
  (forall t, In t l -> isValidTask t = true) -> map VObj (objects l) = l.
Proof.
  induction l as [|t l IH]; intros Hall; [reflexivity|].
  assert (Ht : isValidTask t = true) by (apply Hall; now left).
  apply isValidTask_true in Ht. destruct Ht as [o [-> _]].
  simpl. f_equal. apply IH. intros t' Hin. apply Hall. now right.
Qed.

Lemma filter_filter {A} (p q : A -> bool) (l : list A) :
  filter q (filter p l) = filter (fun x => p x && q x) l.
Proof.
  induction l as [|x l IH]; [reflexivity|]. simpl.
  destruct (p x); simpl; [destruct (q x)|]; now rewrite IH.
Qed.

Lemma mergeTasks_added (state : TodoState) (payload : list value) :
  tasks (mergeTasks state payload)
  = tasks state ++ objects (filter (fresh_valid (tasks state)) payload)
  /\ map VObj (objects (filter (fresh_valid (tasks state)) payload))
     = filter (fresh_valid (tasks state)) payload.
Proof.
  unfold mergeTasks. simpl. rewrite filter_filter. split; [reflexivity|].
  apply objects_lossless. intros t Hin. apply filter_In in Hin.
  destruct Hin as [_ Hf]. unfold fresh_valid in Hf.
  now apply andb_true_iff in Hf.
Qed.

(** * Properties of [update_first] *)

Lemma update_first_split (p : Task -> bool) (f : Task -> Task)
    (l : list Task) :
  (forall t, In t l -> p t = false) /\ update_first p f l = l
  \/ exists before task after,
       l = before ++ task :: after /\
       (forall t, In t before -> p t = false) /\
       p task = true /\
       update_first p f l = before ++ f task :: after.
Proof.
  induction l as [|t l IH].
  - left. split; [intros t []|reflexivity].
  - simpl. destruct (p t) eqn:E.
    + right. exists [], t, l. repeat split; try assumption. intros t' [].
    + destruct IH as [[Hall Heq]|[before [task [after [Hl [Hb [Hp Hu]]]]]]].
      * left. split; [|now rewrite Heq].
        intros t' [<-|Hin]; [assumption|now apply Hall].
      * right. exists (t :: before), task, after. repeat split.
        -- now rewrite Hl.
        -- intros t' [<-|Hin]; [assumption|now apply Hb].
        -- assumption.
        -- now rewrite Hu.
Qed.

Lemma update_first_ids (p : Task -> bool) (f : Task -> Task)
    (l : list Task) :
  (forall t, get "id" (f t) = get "id" t) ->
  map (get "id") (update_first p f l) = map (get "id") l.
Proof.
  intros Hf. induction l as [|t l IH]; [reflexivity|]. simpl.
  destruct (p t); simpl; [now rewrite Hf|now rewrite IH].
Qed.

(* ====================================================================== *)
(** * The task store *)
(* ====================================================================== *)

(** C1.  [mergeTasks] is a union by identifier.  The tasks after the merge
    are the current tasks, unchanged and in place, followed by exactly the
    incoming items that pass the required-string-field check and whose
    identifier no current task has; so an incoming item whose identifier
    equals that of a current task is dropped, and every valid incoming item
    with a fresh identifier is added. *)
Theorem mergeTasks_union_by_id (state : TodoState) (payload : list value) :
  exists added : list Task,
    tasks (mergeTasks state payload) = tasks state ++ added
    /\ map VObj added = filter (fresh_valid (tasks state)) payload
    /\ (forall t t0,
          In t payload -> In t0 (tasks state) ->
          member t "id" = get "id" t0 ->
          ~ In t (map VObj added))
    /\ (forall t,
          In t payload -> isValidTask t = true ->
          (forall t0, In t0 (tasks state) -> get "id" t0 <> member t "id") ->
          In t (map VObj added)).
Proof.
  destruct (mergeTasks_added state payload) as [Htasks Hmap].
  exists (objects (filter (fresh_valid (tasks state)) payload)).
  split; [exact Htasks|]. split; [exact Hmap|]. rewrite Hmap. split.
  - intros t t0 _ Hin0 Hid Hin. apply filter_In in Hin.
    destruct Hin as [_ Hf]. unfold fresh_valid in Hf.
    apply andb_true_iff in Hf. destruct Hf as [Hv Hfresh].
    apply isValidTask_true in Hv.
    destruct Hv as [o [-> [[s Hs] _]]]. simpl in Hid, Hfresh.
    rewrite Hs in Hid, Hfresh. apply negb_true_iff in Hfresh.
    assert (Hhas : Set_has (map (get "id") (tasks state)) (Some (VStr s))
                   = true).
    { apply Set_has_string. rewrite Hid. now apply in_map. }
    congruence.
  - intros t Hin Hv Hfresh. apply filter_In. split; [assumption|].
    unfold fresh_valid. rewrite Hv. simpl. apply negb_true_iff.
    destruct (Set_has (map (get "id") (tasks state)) (member t "id")) eqn:E;
      [|reflexivity].
    exfalso. apply isValidTask_true in Hv.
    destruct Hv as [o [-> [[s Hs] _]]]. simpl in E, Hfresh.
    rewrite Hs in E, Hfresh. apply Set_has_string in E.
    apply in_map_iff in E. destruct E as [t0 [Ht0 Hin0]].
    now apply (Hfresh t0).
Qed.

(** C9.  [editTask] changes the [text], [priority] and [subject] of the
    first task whose identifier is the payload's, and nothing else: every
    other property of that task (so its [id], [completed], [createdAt],
    [completedAt] and [deletedAt]) and every other task is as before; where
    no task has the identifier, the state is as before. *)
Theorem editTask_frame (state : TodoState) (payload : EditTaskPayload) :
  ((forall t, In t (tasks state) ->
      get "id" t <> Some (VStr (edit_id payload)))
   /\ editTask state payload = state)
  \/ exists before task task' after,
       tasks state = before ++ task :: after
       /\ (forall t, In t before ->
             get "id" t <> Some (VStr (edit_id payload)))
       /\ get "id" task = Some (VStr (edit_id payload))
       /\ tasks (editTask state payload) = before ++ task' :: after
       /\ get "text" task' = Some (VStr (edit_text payload))
       /\ get "priority" task' = Some (VStr (edit_priority payload))
       /\ get "subject" task' = Some (VStr (edit_subject payload))
       /\ (forall k,
             k <> "text" -> k <> "priority" -> k <> "subject" ->
             get k task' = get k task)
       /\ get "id" task' = get "id" task
       /\ get "completed" task' = get "completed" task
       /\ get "createdAt" task' = get "createdAt" task
       /\ get "completedAt" task' = get "completedAt" task
       /\ get "deletedAt" task' = get "deletedAt" task.
Proof.
  set (f := fun task : Task =>
              set "subject" (VStr (edit_subject payload))
                (set "priority" (VStr (edit_priority payload))
                   (set "text" (VStr (edit_text payload)) task))).
  assert (Hother : forall task k,
             k <> "text" -> k <> "priority" -> k <> "subject" ->
             get k (f task) = get k task).
  { intros task k H1 H2 H3. unfold f.
    rewrite !get_set_other; congruence. }
  destruct (update_first_split (id_is (edit_id payload)) f (tasks state))
    as [[Hall Heq]|[before [task [after [Hl [Hb [Hp Hu]]]]]]].
  - left. split.
    + intros t Hin Hid. apply id_is_true in Hid.
      rewrite (Hall t Hin) in Hid. discriminate.
    + unfold editTask. fold f. rewrite Heq. now destruct state.
  - right. exists before, task, (f task), after.
    split; [exact Hl|]. split.
    { intros t Hin Hid. apply id_is_true in Hid.
      rewrite (Hb t Hin) in Hid. discriminate. }
    split; [now apply id_is_true|]. split; [exact Hu|].
    split.
    { unfold f. rewrite !get_set_other by discriminate.
      apply get_set_same. }
    split.
    { unfold f. rewrite get_set_other by discriminate.
      apply get_set_same. }
    split; [apply get_set_same|].
    split; [exact (Hother task)|].
    repeat split; apply Hother; discriminate.
Qed.

(** * Identifier uniqueness *)

(** Dropping elements keeps their keys distinct. *)
Lemma NoDup_keys_filter {A B} (key : A -> B) (keep : A -> bool)
    (xs : list A) :
  NoDup (map key xs) -> NoDup (map key (filter keep xs)).
Proof.
  induction xs as [|x xs IH]; simpl; intros Hnd; [assumption|].
  apply NoDup_cons_iff in Hnd. destruct Hnd as [Hnotin Hnd].
  destruct (keep x); simpl; [|now apply IH].
  apply NoDup_cons_iff. split; [|now apply IH].
  intros Hin. apply Hnotin. apply in_map_iff in Hin.
  destruct Hin as [z [Hz Hin]]. apply filter_In in Hin.
  apply in_map_iff. exists z. now split.
Qed.

Lemma unique_ids_addTask (uuid now : string) (state : TodoState)
    (payload : AddTaskPayload) :
  unique_ids (tasks state) ->
  (forall t, In t (tasks state) -> get "id" t <> Some (VStr uuid)) ->
  unique_ids (tasks (addTask uuid now state payload)).
Proof.
  unfold unique_ids. intros Hnd Hfresh. simpl. rewrite map_app.
  apply NoDup_app; [assumption|repeat constructor; intros []|].
  intros x Hin [<-|[]]. apply in_map_iff in Hin.
  destruct Hin as [t [Ht Hin]]. now apply (Hfresh t).
Qed.

Lemma unique_ids_editTask (state : TodoState) (payload : EditTaskPayload) :
  unique_ids (tasks state) -> unique_ids (tasks (editTask state payload)).
Proof.
  unfold unique_ids, editTask. simpl. rewrite update_first_ids; [easy|].
  intros t. now rewrite !get_set_other by discriminate.
Qed.

Lemma unique_ids_toggleTask (now : string) (state : TodoState)
    (payload : string) :
  unique_ids (tasks state) -> unique_ids (tasks (toggleTask now state payload)).
Proof.
  unfold unique_ids, toggleTask. simpl. rewrite update_first_ids; [easy|].
  intros t. now rewrite !get_set_other by discriminate.
Qed.

Lemma unique_ids_deleteTask (state : TodoState) (payload : string) :
  unique_ids (tasks state) -> unique_ids (tasks (deleteTask state payload)).
Proof. apply NoDup_keys_filter. Qed.

Lemma unique_ids_clearTasks (state : TodoState) :
  unique_ids (tasks (clearTasks state)).
Proof. constructor. Qed.

(** A merge keeps identifiers unique when the valid incoming items carry
    pairwise distinct identifiers. *)
Lemma unique_ids_mergeTasks (state : TodoState) (payload : list value) :
  unique_ids (tasks state) ->
  NoDup (map (fun t => member t "id") (filter isValidTask payload)) ->
  unique_ids (tasks (mergeTasks state payload)).
Proof.
  unfold unique_ids. intros Hnd Hin.
  destruct (mergeTasks_added state payload) as [-> Hmap].
  assert (Hids : map (get "id")
                   (objects (filter (fresh_valid (tasks state)) payload))
                 = map (fun t => member t "id")
                     (filter (fresh_valid (tasks state)) payload)).
  { rewrite <- Hmap at 2. now rewrite map_map. }
  unfold Task in *. rewrite map_app, Hids.
  apply NoDup_app; [assumption| |].
  - unfold fresh_valid. rewrite <- filter_filter.
    now apply NoDup_keys_filter.
  - intros x Hx Hx'. apply in_map_iff in Hx'.
    destruct Hx' as [t [<- Ht]]. apply filter_In in Ht.
    destruct Ht as [_ Hf]. unfold fresh_valid in Hf.
    apply andb_true_iff in Hf. destruct Hf as [Hv Hfresh].
    apply isValidTask_true in Hv. destruct Hv as [o [-> [[s Hs] _]]].
    simpl in Hx, Hfresh. rewrite Hs in Hx, Hfresh.
    apply Set_has_string in Hx. rewrite Hx in Hfresh. discriminate.
Qed.

(** Every operation of the task store keeps identifiers unique, given a
    fresh identifier for [addTask] and distinct identifiers inside the
    payload of [mergeTasks]. *)
Lemma todoReducer_unique_ids (uuid now : string) (state : TodoState)
    (a : TodoAction) :
  unique_ids (tasks state) ->
  match a with
  | AddTask _ =>
      forall t, In t (tasks state) -> get "id" t <> Some (VStr uuid)
  | MergeTasks payload =>
      NoDup (map (fun t => member t "id") (filter isValidTask payload))
  | _ => True
  end ->
  unique_ids (tasks (todoReducer uuid now state a)).
Proof.
  intros Hnd Hside. destruct a; simpl.
  - now apply unique_ids_addTask.
  - now apply unique_ids_editTask.
  - now apply unique_ids_toggleTask.
  - now apply unique_ids_deleteTask.
  - now apply unique_ids_mergeTasks.
  - apply (unique_ids_clearTasks state).
Qed.

(** C2.  [mergeTasks] compares incoming identifiers with those of the
    current tasks only, not with each other: from the empty collection, a
    payload of two valid items that share the identifier ["a"] leaves two
    tasks with that identifier. *)
Theorem mergeTasks_twins_break_unique_ids :
  unique_ids (tasks initialState)
  /\ tasks (mergeTasks initialState [twin "one"; twin "two"])
     = objects [twin "one"; twin "two"]
  /\ ~ unique_ids (tasks (mergeTasks initialState [twin "one"; twin "two"])).
Proof.
  split; [constructor|]. split; [reflexivity|].
  unfold unique_ids. simpl. intros Hnd.
  inversion Hnd as [|x l Hnotin _]; subst. apply Hnotin. now left.
Qed.

(* ====================================================================== *)
(** * The settings store *)
(* ====================================================================== *)

Lemma includes_true (l : list string) (x : string) :
  includes l x = true <-> In x l.
Proof.
  unfold includes. rewrite existsb_exists. split.
  - intros [y [Hin E]]. apply String.eqb_eq in E. now subst.
  - intros Hin. exists x. split; [assumption|apply String.eqb_refl].
Qed.

Lemma includes_false (l : list string) (x : string) :
  includes l x = false <-> ~ In x l.
Proof.
  rewrite <- includes_true. destruct (includes l x); split; congruence.
Qed.

Lemma NoDup_snoc (l : list string) (x : string) :
  NoDup l -> ~ In x l -> NoDup (l ++ [x]).
Proof.
  intros Hnd Hnotin. apply NoDup_app; [assumption| |].
  - repeat constructor. intros [].
  - intros y Hy [<-|[]]. contradiction.
Qed.

Lemma Set_add_NoDup (s : list string) (x : string) :
  NoDup s -> NoDup (Set_add s x).
Proof.
  intros Hnd. unfold Set_add. destruct (includes s x) eqn:E; [assumption|].
  apply NoDup_snoc; [assumption|now apply includes_false].
Qed.

Lemma Set_add_In (s : list string) (x y : string) :
  In y (Set_add s x) <-> In y s \/ y = x.
Proof.
  unfold Set_add. destruct (includes s x) eqn:E.
  - apply includes_true in E. split; [now left|].
    intros [H | ->]; assumption.
  - rewrite in_app_iff. simpl. intuition.
Qed.

(** A [Set] built by successive insertion has no duplicates and holds
    what was inserted. *)
Lemma fold_Set_add (l acc : list string) :
  NoDup acc ->
  NoDup (fold_left Set_add l acc)
  /\ forall y, In y (fold_left Set_add l acc) <-> In y acc \/ In y l.
Proof.
  revert acc. induction l as [|x l IH]; intros acc Hnd; simpl.
  - split; [assumption|]. intuition.
  - destruct (IH (Set_add acc x) (Set_add_NoDup x Hnd)) as [Hnd' Hin].
    split; [assumption|]. intros y. rewrite Hin, Set_add_In. intuition.
Qed.

Lemma new_Set_NoDup (l : list string) : NoDup (new_Set l).
Proof. apply fold_Set_add. constructor. Qed.

Lemma new_Set_In (l : list string) (y : string) :
  In y (new_Set l) <-> In y l.
Proof.
  unfold new_Set.
  destruct (fold_Set_add l (NoDup_nil string)) as [_ Hin].
  rewrite Hin. simpl. intuition.
Qed.

(** C5.  [mergeSettings] takes the incoming theme when there is one,
    replaces the subjects by the duplicate-free union of the current and
    the incoming subjects when the latter are given, and takes the incoming
    notification time when there is one; a field that is not given leaves
    the state's as it was.  Merging ["Physics"; "Chemistry"] with
    ["Physics"; "Biology"] gives Physics, Chemistry, Biology. *)
Theorem mergeSettings_overwrites_and_unions (state : SettingsState)
    (incoming : PartialSettings) :
  themeMode (mergeSettings state incoming)
  = match p_themeMode incoming with
    | Some m => m
    | None => themeMode state
    end
  /\ match p_subjects incoming with
     | Some l =>
         NoDup (subjects (mergeSettings state incoming))
         /\ forall x, In x (subjects (mergeSettings state incoming))
                      <-> In x (subjects state) \/ In x l
     | None => subjects (mergeSettings state incoming) = subjects state
     end
  /\ notificationTime (mergeSettings state incoming)
     = match p_notificationTime incoming with
       | Some t => t
       | None => notificationTime state
       end
  /\ subjects
       (mergeSettings
          {| themeMode := themeMode state;
             subjects := ["Physics"; "Chemistry"];
             notificationTime := notificationTime state |}
          {| p_themeMode := p_themeMode incoming;
             p_subjects := Some ["Physics"; "Biology"];
             p_notificationTime := p_notificationTime incoming |})
     = ["Physics"; "Chemistry"; "Biology"].
Proof.
  split; [|split; [|split]].
  - unfold mergeSettings. simpl.
    destruct (p_themeMode incoming) as [[| |]|]; reflexivity.
  - unfold mergeSettings. simpl.
    destruct (p_subjects incoming) as [l|]; [|reflexivity].
    unfold Array_from. split; [apply new_Set_NoDup|].
    intros x. rewrite new_Set_In. apply in_app_iff.
  - reflexivity.
  - reflexivity.
Qed.

(** * No duplicate subjects *)

(** C6, as the store has it.  From a state without duplicate subjects,
    [setThemeMode], [addSubject], [deleteSubject], [setNotificationTime],
    [mergeSettings] with any payload and [clearSettings] lead to a state
    without duplicate subjects, and so does [loadSettings] when the
    subjects of its payload, if given, are themselves without duplicates. *)
Theorem settingsReducer_NoDup_subjects (state : SettingsState)
    (a : SettingsAction) :
  NoDup (subjects state) ->
  match a with
  | LoadSettings payload =>
      match p_subjects payload with
      | Some l => NoDup l
      | None => True
      end
  | _ => True
  end ->
  NoDup (subjects (settingsReducer state a)).
Proof.
  intros Hnd Hside. destruct a as [m|x|x|t|p|p|]; simpl.
  - assumption.
  - unfold addSubject. destruct (includes (subjects state) x) eqn:E; simpl.
    + assumption.
    + apply NoDup_snoc; [assumption|now apply includes_false].
  - now apply NoDup_filter.
  - assumption.
  - destruct (p_subjects p); assumption.
  - destruct (p_subjects p); [apply new_Set_NoDup|assumption].
  - repeat constructor; simpl; intuition discriminate.
Qed.

Lemma defaultState_NoDup : NoDup (subjects defaultState).
Proof. repeat constructor; simpl; intuition discriminate. Qed.

Lemma settingsReducer_NoDup_subjects_witness :
  NoDup (subjects defaultState)
  /\ NoDup (subjects (settingsReducer defaultState
                        (LoadSettings {| p_themeMode := Some dark;
                                         p_subjects := Some ["History"];
                                         p_notificationTime := None |}))).
Proof.
  split; [exact defaultState_NoDup|].
  apply (settingsReducer_NoDup_subjects defaultState
           (LoadSettings {| p_themeMode := Some dark;
                            p_subjects := Some ["History"];
                            p_notificationTime := None |})).
  - exact defaultState_NoDup.
  - simpl. repeat constructor. simpl. intuition.
Defined.

(** C6, as stated, fails: [loadSettings] stores the subjects of its payload
    as they are, duplicates included. *)
Lemma loadSettings_keeps_duplicates :
  ~ (forall (state : SettingsState) (a : SettingsAction),
       NoDup (subjects state) -> NoDup (subjects (settingsReducer state a))).
Proof.
  intros Hall.
  specialize (Hall defaultState
                (LoadSettings {| p_themeMode := None;
                                 p_subjects := Some ["Physics"; "Physics"];
                                 p_notificationTime := None |})
                defaultState_NoDup).
  simpl in Hall. inversion Hall as [|x l Hnotin _]; subst.
  apply Hnotin. now left.
Qed.

(** * Deleting a subject *)

Lemma filter_all {A} (p : A -> bool) (l : list A) :
  (forall x, In x l -> p x = true) -> filter p l = l.
Proof.
  induction l as [|x l IH]; intros Hall; [reflexivity|]. simpl.
  rewrite (Hall x (or_introl eq_refl)). f_equal.
  apply IH. intros y Hy. apply Hall. now right.
Qed.

Lemma keep_other_true (label x : string) :
  negb (String.eqb x label) = true <-> x <> label.
Proof.
  rewrite negb_true_iff. split.
  - intros E ->. rewrite String.eqb_refl in E. discriminate.
  - intros Hne. destruct (String.eqb x label) eqn:E; [|reflexivity].
    apply String.eqb_eq in E. contradiction.
Qed.

(** C7, as the store has it.  [deleteSubject] removes every entry equal to
    the label and no other: the entries that differ from the label stay, as
    often and in the order they were.  Where the label occurs in a list
    without duplicates exactly one entry goes; where it does not occur the
    list is as before.  Theme and notification time are not touched. *)
Theorem deleteSubject_removes_the_label (state : SettingsState)
    (label : string) :
  subjects (deleteSubject state label)
  = remove string_dec label (subjects state)
  /\ ~ In label (subjects (deleteSubject state label))
  /\ (forall x, x <> label ->
        count_occ string_dec (subjects (deleteSubject state label)) x
        = count_occ string_dec (subjects state) x)
  /\ (NoDup (subjects state) -> In label (subjects state) ->
        exists before after,
          subjects state = before ++ label :: after
          /\ subjects (deleteSubject state label) = before ++ after)
  /\ (~ In label (subjects state) ->
        subjects (deleteSubject state label) = subjects state)
  /\ themeMode (deleteSubject state label) = themeMode state
  /\ notificationTime (deleteSubject state label) = notificationTime state.
Proof.
  unfold deleteSubject. simpl.
  set (keep := fun subject => negb (String.eqb subject label)).
  assert (Hnot : forall l, ~ In label l -> filter keep l = l).
  { intros l Hl. apply filter_all. intros x Hx. apply keep_other_true.
    intros ->. contradiction. }
  split; [|split; [|split; [|split; [|split; [|split]]]]];
    try reflexivity.
  - induction (subjects state) as [|x l IH]; [reflexivity|]. simpl.
    unfold keep at 1. destruct (string_dec label x) as [<-|Hne].
    + rewrite String.eqb_refl. simpl. exact IH.
    + destruct (String.eqb x label) eqn:E.
      * apply String.eqb_eq in E. congruence.
      * simpl. now rewrite IH.
  - intros Hin. apply filter_In in Hin. destruct Hin as [_ Hk].
    unfold keep in Hk. rewrite String.eqb_refl in Hk. discriminate.
  - intros x Hne. induction (subjects state) as [|y l IH]; [reflexivity|].
    simpl. unfold keep at 1. destruct (String.eqb y label) eqn:E; simpl.
    + apply String.eqb_eq in E. subst y.
      destruct (string_dec label x); [congruence|exact IH].
    + destruct (string_dec y x); now rewrite IH.
  - intros Hnd Hin. apply in_split in Hin.
    destruct Hin as [before [after Hl]]. exists before, after.
    split; [assumption|]. rewrite Hl in Hnd |- *.
    apply NoDup_remove_2 in Hnd. rewrite filter_app. simpl.
    unfold keep at 2. rewrite String.eqb_refl. simpl.
    rewrite !Hnot; [reflexivity| |];
      intros Hin; apply Hnd; apply in_or_app; tauto.
  - exact (Hnot (subjects state)).
Qed.

(** C7, as stated, fails: a label that is not in the list has no entry to
    lose. *)
Lemma deleteSubject_absent_label :
  ~ (forall (state : SettingsState) (label : string),
       exists before after,
         subjects state = before ++ label :: after
         /\ subjects (deleteSubject state label) = before ++ after).
Proof.
  intros Hall.
  destruct (Hall defaultState "Biology") as [before [after [Hl _]]].
  assert (Hin : In "Biology" (subjects defaultState)).
  { rewrite Hl. apply in_or_app. right. now left. }
  simpl in Hin. intuition discriminate.
Qed.

(* ====================================================================== *)
(** * Loading the settings from storage *)
(* ====================================================================== *)

(** C3.  [loadSettingsFromStorage] always returns, whatever the storage
    and the parser do.  With no record under the settings key, and with a
    record that [JSON.parse] rejects, it returns the defaults: theme
    ["system"], subjects Physics, Chemistry, Math, notification time
    [null]. *)
Theorem loadSettingsFromStorage_never_throws (H : Host) :
  (exists r, loadSettingsFromStorage H = Return r)
  /\ (AsyncStorage_getItem H STORAGE_KEYS.SETTINGS = Return None ->
      loadSettingsFromStorage H = Return (SettingsState_object defaultState))
  /\ (forall json e,
        AsyncStorage_getItem H STORAGE_KEYS.SETTINGS = Return (Some json) ->
        JSON_parse H json = Throw e ->
        loadSettingsFromStorage H
        = Return (SettingsState_object defaultState))
  /\ SettingsState_object defaultState
     = [ ("themeMode", VStr "system");
         ("subjects", VArr [VStr "Physics"; VStr "Chemistry"; VStr "Math"]);
         ("notificationTime", VNull) ].
Proof.
  split; [|split; [|split]].
  - unfold loadSettingsFromStorage.
    destruct (loadSettingsFromStorage_try H) as [r|e]; eauto.
  - intros Hget. unfold loadSettingsFromStorage, loadSettingsFromStorage_try.
    rewrite Hget. reflexivity.
  - intros json e Hget Hparse.
    unfold loadSettingsFromStorage, loadSettingsFromStorage_try.
    rewrite Hget. simpl. destruct (String.eqb json "") eqn:E; simpl.
    + reflexivity.
    + rewrite Hparse. reflexivity.
  - reflexivity.
Qed.

(* ====================================================================== *)
(** * The import flow *)
(* ====================================================================== *)

Lemma import_failed_message (err : Error) :
  alertMessage (import_failed err) <> "".
Proof.
  simpl. destruct (String.eqb (message err) "") eqn:E; simpl.
  - discriminate.
  - intros Hm. rewrite Hm in E. discriminate.
Qed.

(** The import flow once a file has been picked and read. *)
Lemma handleImport_picked (H : Host) (content : string) (w : World) :
  picks_file H content ->
  handleImport H w
  = match JSON_parse H content with
    | Throw e => showAlert error "Import Failed" (alertMessage (import_failed e)) w
    | Return parsed =>
        match property H parsed "tasks" with
        | Throw e =>
            showAlert error "Import Failed" (alertMessage (import_failed e)) w
        | Return parsed_tasks =>
            if negb (Array_isArray parsed_tasks)
            then showAlert error "Import Failed"
                   "Invalid format: 'tasks' array missing." w
            else
              match property H parsed "settings" with
              | Throw e =>
                  showAlert error "Import Failed"
                    (alertMessage (import_failed e)) w
              | Return parsed_settings =>
                  if negb (is_object parsed_settings)
                  then showAlert error "Import Failed"
                         "Invalid format: 'settings' object missing." w
                  else
                    let validTasks :=
                      filter isValidTask (elements parsed_tasks) in
                    let newTasks :=
                      filter (fresh_valid (tasks (todo (store w))))
                        (elements parsed_tasks) in
                    if Nat.eqb (List.length newTasks) 0
                    then showAlert warning "Nothing to Import"
                           "No new tasks found to merge." w
                    else
                      (dispatch H (todo_action (MergeTasks validTasks)) ;;;
                       dispatch H
                         (settings_action
                            (MergeSettings
                               (as_PartialSettings H
                                  (match parsed_settings with
                                   | Some v => v
                                   | None => VNull
                                   end)))) ;;;
                       showAlert success "Import Successful"
                         (template_length (List.length newTasks)
                          ++ " new tasks merged.")%string) w
              end
        end
    end.
Proof.
  intros [picked [file [rest [Hpick [Hcancel [Hassets Hread]]]]]].
  unfold handleImport, try_catch, handleImport_try, bind, lift, currentTasks.
  rewrite Hpick, Hcancel, Hassets. simpl. rewrite Hread.
  destruct (JSON_parse H content) as [parsed|e]; [|reflexivity].
  destruct (property H parsed "tasks") as [parsed_tasks|e]; [|reflexivity].
  destruct (Array_isArray parsed_tasks); simpl; [|reflexivity].
  destruct (property H parsed "settings") as [parsed_settings|e];
    [|reflexivity].
  unfold is_object. rewrite negb_andb, negb_involutive.
  destruct (negb (String.eqb (typeof parsed_settings) "object")
            || strict_equal parsed_settings (Some VNull)); [reflexivity|].
  rewrite filter_filter. fold (fresh_valid (tasks (todo (store w)))).
  destruct (Nat.eqb
              (List.length
                 (filter (fresh_valid (tasks (todo (store w))))
                    (elements parsed_tasks))) 0); [reflexivity|].
  unfold ret, throw.
  destruct (dispatch H
              (todo_action
                 (MergeTasks (filter isValidTask (elements parsed_tasks)))) w)
    as [[[]|e] w1] eqn:E1; [|discriminate E1].
  reflexivity.
Qed.

Lemma member_some_property (H : Host) (parsed : value) (k : string)
    (v : value) :
  member parsed k = Some v -> property H parsed k = Return (Some v).
Proof. destruct parsed; simpl; intros E; try discriminate. now rewrite E. Qed.

Lemma property_not_null (H : Host) (parsed : value) (k : string) :
  parsed <> VNull -> property H parsed k = Return (member parsed k).
Proof. destruct parsed; simpl; intros E; congruence. Qed.

(** An import that the checks refuse changes nothing but the alert.  Once
    a file has been picked and read, if its text is not JSON, or the [tasks] of
    the parsed document is not an array, or its [settings] is not an object
    (in the sense of [typeof], and not [null]), then [handleImport] returns
    with the store as it was, no action dispatched, and the "Import Failed"
    alert showing a message that is not empty. *)
Theorem handleImport_failure_is_atomic (H : Host) (content : string)
    (w : World) :
  picks_file H content ->
  bad_backup H content ->
  exists err,
    handleImport H w
    = (Return tt,
       {| store := store w;
          dispatched := dispatched w;
          alert := {| modalVisible := true;
                      alertTitle := "Import Failed";
                      alertMessage := alertMessage (import_failed err);
                      alertType := error |} |})
    /\ alertMessage (import_failed err) <> "".
Proof.
  intros Hpick Hbad. rewrite (handleImport_picked w Hpick).
  assert (Hnull : forall k,
            exists err,
              showAlert error "Import Failed"
                (alertMessage (import_failed (TypeError_of_null H k))) w
              = (Return tt,
                 {| store := store w;
                    dispatched := dispatched w;
                    alert := {| modalVisible := true;
                                alertTitle := "Import Failed";
                                alertMessage :=
                                  alertMessage (import_failed err);
                                alertType := error |} |})
              /\ alertMessage (import_failed err) <> "").
  { intros k. exists (TypeError_of_null H k).
    split; [reflexivity|apply import_failed_message]. }
  destruct Hbad as [[e He]|[[parsed [Hp Harr]]|[parsed [Hp Hobj]]]].
  - rewrite He. exists e. split; [reflexivity|apply import_failed_message].
  - rewrite Hp. destruct parsed as [|b|n|s|l|o]; [apply Hnull|..];
      rewrite property_not_null by discriminate; rewrite Harr; simpl;
      exists {| message := "Invalid format: 'tasks' array missing." |};
      (split; [reflexivity|discriminate]).
  - rewrite Hp. destruct parsed as [|b|n|s|l|o]; [apply Hnull|..];
      rewrite !property_not_null by discriminate; rewrite Hobj;
      (destruct (Array_isArray _); simpl;
       [ exists {| message := "Invalid format: 'settings' object missing." |}
       | exists {| message := "Invalid format: 'tasks' array missing." |} ];
       (split; [reflexivity|discriminate])).
Qed.

Lemma filter_nil_iff {A} (p : A -> bool) (l : list A) :
  filter p l = [] <-> forall x, In x l -> p x = false.
Proof.
  induction l as [|x l IH]; simpl.
  - split; [intros _ y []|reflexivity].
  - destruct (p x) eqn:E; split.
    + discriminate.
    + intros Hall. specialize (Hall x (or_introl eq_refl)). congruence.
    + intros Hnil y [<-|Hy]; [assumption|]. now apply IH.
    + intros Hall. apply IH. intros y Hy. apply Hall. now right.
Qed.

Lemma all_known_no_fresh (current : list Task) (backup_tasks : list value) :
  all_known current backup_tasks ->
  filter (fresh_valid current) backup_tasks = [].
Proof.
  intros Hknown. apply filter_nil_iff. intros t Hin. unfold fresh_valid.
  destruct (isValidTask t) eqn:Hv; [|reflexivity]. simpl.
  apply negb_false_iff.
  destruct (Hknown t Hin Hv) as [t0 [Hin0 Hid]].
  apply isValidTask_true in Hv. destruct Hv as [o [-> [[s Hs] _]]].
  simpl in *. rewrite Hs in *. apply Set_has_string.
  rewrite <- Hid. now apply in_map.
Qed.

(** The import flow on a backup that brings nothing new. *)
Lemma handleImport_nothing_new (H : Host) (backup_tasks : list value)
    (backup_settings : value) (w : World) :
  picks_backup H backup_tasks backup_settings ->
  all_known (tasks (todo (store w))) backup_tasks ->
  handleImport H w
  = (Return tt,
     {| store := store w;
        dispatched := dispatched w;
        alert := nothing_to_import |}).
Proof.
  intros [content [parsed [Hpick [Hparse [Htasks [Hsettings Hobj]]]]]] Hknown.
  rewrite (handleImport_picked w Hpick), Hparse.
  rewrite (member_some_property H parsed "tasks" Htasks).
  rewrite (member_some_property H parsed "settings" Hsettings).
  simpl Array_isArray. rewrite Hobj. simpl negb. cbv iota. simpl elements.
  cbv zeta. rewrite (all_known_no_fresh Hknown). reflexivity.
Qed.

(** The import flow on a backup that brings [n > 0] new tasks: both merges
    are dispatched and the success alert counts the new tasks. *)
Lemma handleImport_merges (H : Host) (backup_tasks : list value)
    (backup_settings : value) (w : World) :
  picks_backup H backup_tasks backup_settings ->
  (exists t, In t backup_tasks
             /\ fresh_valid (tasks (todo (store w))) t = true) ->
  exists n,
    0 < n
    /\ n = List.length
             (filter (fresh_valid (tasks (todo (store w)))) backup_tasks)
    /\ handleImport H w
       = (Return tt,
          {| store :=
               {| todo :=
                    mergeTasks (todo (store w))
                      (filter isValidTask backup_tasks);
                  settings :=
                    mergeSettings (settings (store w))
                      (as_PartialSettings H backup_settings) |};
             dispatched :=
               dispatched w
               ++ [todo_action
                     (MergeTasks (filter isValidTask backup_tasks));
                   settings_action
                     (MergeSettings
                        (as_PartialSettings H backup_settings))];
             alert := import_successful n |}).
Proof.
  intros [content [parsed [Hpick [Hparse [Htasks [Hsettings Hobj]]]]]]
    [t [Hin Hfresh]].
  set (new := filter (fresh_valid (tasks (todo (store w)))) backup_tasks).
  assert (Hpos : 0 < List.length new).
  { assert (Hnew : In t new) by (apply filter_In; now split).
    destruct new; [destruct Hnew|simpl; lia]. }
  exists (List.length new). split; [assumption|]. split; [reflexivity|].
  rewrite (handleImport_picked w Hpick), Hparse.
  rewrite (member_some_property H parsed "tasks" Htasks).
  rewrite (member_some_property H parsed "settings" Hsettings).
  simpl Array_isArray. rewrite Hobj. simpl negb. cbv iota. simpl elements.
  cbv zeta. fold new.
  destruct (Nat.eqb (List.length new) 0) eqn:E.
  - apply Nat.eqb_eq in E. lia.
  - unfold bind, dispatch, showAlert, import_successful. simpl.
    rewrite <- app_assoc. reflexivity.
Qed.

Lemma picking_host_picks (parse : string -> result value) :
  picks_file (picking_host parse) "backup.json".
Proof.
  exists {| canceled := false;
            assets := Some [ {| uri := "file:///cache/backup.json" |} ] |},
    {| uri := "file:///cache/backup.json" |}, [].
  repeat split.
Defined.

Lemma handleImport_failure_is_atomic_witness :
  picks_file not_json_host "backup.json"
  /\ bad_backup not_json_host "backup.json"
  /\ exists err,
       handleImport not_json_host one_task_world
       = (Return tt,
          {| store := store one_task_world;
             dispatched := dispatched one_task_world;
             alert := {| modalVisible := true;
                         alertTitle := "Import Failed";
                         alertMessage := alertMessage (import_failed err);
                         alertType := error |} |})
       /\ alertMessage (import_failed err) <> "".
Proof.
  assert (Hbad : bad_backup not_json_host "backup.json").
  { left. eexists. reflexivity. }
  split; [apply picking_host_picks|]. split; [exact Hbad|].
  apply (@handleImport_failure_is_atomic not_json_host "backup.json"
           one_task_world (picking_host_picks _) Hbad).
Defined.

(** C8.  A backup all of whose valid tasks carry identifiers of current
    tasks adds no task: the task collection is as before, and the alert is
    the "Nothing to Import" warning.  An import of a backup with at least
    one new valid task ends instead with the "Import Successful" alert, of
    another type, so the two outcomes are told apart. *)
Theorem handleImport_nothing_new_is_a_warning (H H' : Host)
    (backup_tasks backup_tasks' : list value)
    (backup_settings backup_settings' : value) (w w' : World) :
  picks_backup H backup_tasks backup_settings ->
  all_known (tasks (todo (store w))) backup_tasks ->
  picks_backup H' backup_tasks' backup_settings' ->
  (exists t, In t backup_tasks'
             /\ fresh_valid (tasks (todo (store w'))) t = true) ->
  todo (store (snd (handleImport H w))) = todo (store w)
  /\ alert (snd (handleImport H w)) = nothing_to_import
  /\ alertTitle (alert (snd (handleImport H w))) = "Nothing to Import"
  /\ alertType (alert (snd (handleImport H w))) = warning
  /\ alertTitle (alert (snd (handleImport H' w'))) = "Import Successful"
  /\ alertType (alert (snd (handleImport H' w'))) = success
  /\ alert (snd (handleImport H w)) <> alert (snd (handleImport H' w')).
Proof.
  intros Hpick Hknown Hpick' Hnew.
  rewrite (handleImport_nothing_new w Hpick Hknown).
  destruct (handleImport_merges w' Hpick' Hnew) as [n [_ [_ ->]]].
  simpl. repeat split. discriminate.
Qed.

Lemma known_backup_host_picks :
  picks_backup known_backup_host [VObj (stored_task "t1" "Read")]
    (VObj [ ("themeMode", VStr "dark");
            ("subjects", VArr [VStr "Physics"; VStr "Biology"]);
            ("notificationTime", VStr "07:00") ]).
Proof.
  exists "backup.json", (backup_of [VObj (stored_task "t1" "Read")]).
  split; [apply picking_host_picks|]. repeat split.
Defined.

Lemma new_backup_host_picks :
  picks_backup new_backup_host
    [VObj (stored_task "t1" "Read"); VObj (stored_task "t2" "Write")]
    (VObj [ ("themeMode", VStr "dark");
            ("subjects", VArr [VStr "Physics"; VStr "Biology"]);
            ("notificationTime", VStr "07:00") ]).
Proof.
  exists "backup.json",
    (backup_of [VObj (stored_task "t1" "Read");
                VObj (stored_task "t2" "Write")]).
  split; [apply picking_host_picks|]. repeat split.
Defined.

Lemma one_task_world_knows_t1 :
  all_known (tasks (todo (store one_task_world)))
    [VObj (stored_task "t1" "Read")].
Proof.
  intros t [<-|[]] _. exists (stored_task "t1" "Read").
  split; [now left|reflexivity].
Defined.

Lemma handleImport_nothing_new_is_a_warning_witness :
  todo (store (snd (handleImport known_backup_host one_task_world)))
  = todo (store one_task_world)
  /\ alert (snd (handleImport known_backup_host one_task_world))
     = nothing_to_import
  /\ alertTitle (alert (snd (handleImport known_backup_host one_task_world)))
     = "Nothing to Import"
  /\ alertType (alert (snd (handleImport known_backup_host one_task_world)))
     = warning
  /\ alertTitle (alert (snd (handleImport new_backup_host one_task_world)))
     = "Import Successful"
  /\ alertType (alert (snd (handleImport new_backup_host one_task_world)))
     = success
  /\ alert (snd (handleImport known_backup_host one_task_world))
     <> alert (snd (handleImport new_backup_host one_task_world)).
Proof.
  apply (@handleImport_nothing_new_is_a_warning
           known_backup_host new_backup_host _ _ _ _
           one_task_world one_task_world
           known_backup_host_picks one_task_world_knows_t1
           new_backup_host_picks).
  exists (VObj (stored_task "t2" "Write")). split.
  - right. now left.
  - reflexivity.
Defined.

(** C10.  On a backup that brings no new task, [handleImport] returns
    before any dispatch: no action reaches the store, and the settings
    (theme, subjects, notification time) are as before, whatever the
    [settings] of the backup say. *)
Theorem handleImport_nothing_new_discards_settings (H : Host)
    (backup_tasks : list value) (backup_settings : value) (w : World) :
  picks_backup H backup_tasks backup_settings ->
  all_known (tasks (todo (store w))) backup_tasks ->
  fst (handleImport H w) = Return tt
  /\ dispatched (snd (handleImport H w)) = dispatched w
  /\ settings (store (snd (handleImport H w))) = settings (store w)
  /\ themeMode (settings (store (snd (handleImport H w))))
     = themeMode (settings (store w))
  /\ subjects (settings (store (snd (handleImport H w))))
     = subjects (settings (store w))
  /\ notificationTime (settings (store (snd (handleImport H w))))
     = notificationTime (settings (store w)).
Proof.
  intros Hpick Hknown.
  rewrite (handleImport_nothing_new w Hpick Hknown). simpl.
  repeat split.
Qed.

Lemma handleImport_nothing_new_discards_settings_witness :
  mergeSettings (settings (store one_task_world))
    (as_PartialSettings known_backup_host
       (VObj [ ("themeMode", VStr "dark");
               ("subjects", VArr [VStr "Physics"; VStr "Biology"]);
               ("notificationTime", VStr "07:00") ]))
  <> settings (store one_task_world)
  /\ dispatched (snd (handleImport known_backup_host one_task_world)) = []
  /\ settings (store (snd (handleImport known_backup_host one_task_world)))
     = defaultState.
Proof.
  split; [discriminate|].
  destruct (@handleImport_nothing_new_discards_settings
              known_backup_host _ _ one_task_world
              known_backup_host_picks one_task_world_knows_t1)
    as [_ [Hd [Hs _]]].
  split; [exact Hd|exact Hs].
Defined.

(** * An array passes for a settings object *)

(** The check on [settings] does not refuse everything that is not a
    plain object: [typeof] says ["object"] of an array too, so not every
    backup whose [settings] is no object ends with the error alert and the
    store unchanged. *)
Lemma handleImport_accepts_array_settings :
  ~ (forall (H : Host) (content : string) (w : World),
       picks_file H content ->
       (exists parsed,
          JSON_parse H content = Return parsed
          /\ forall o, member parsed "settings" <> Some (VObj o)) ->
       store (snd (handleImport H w)) = store w
       /\ alertType (alert (snd (handleImport H w))) = error).
Proof.
  intros Hall.
  destruct (Hall array_settings_host "backup.json" one_task_world
              (picking_host_picks _)) as [_ Htype].
  - eexists. split; [reflexivity|]. intros o. discriminate.
  - discriminate Htype.
Qed.

(** C4.  The check that is to refuse a backup without a [settings]
    object lets an array through.  On the backup
    [{"tasks": [t2], "settings": []}], whose [settings] is an array and no
    object, [handleImport] shows no error: it merges, the task collection
    grows by [t2], and the alert is "Import Successful". *)
Theorem handleImport_array_settings_is_merged :
  picks_file array_settings_host "backup.json"
  /\ JSON_parse array_settings_host "backup.json"
     = Return (VObj [ ("tasks", VArr [VObj (stored_task "t2" "Write")]);
                      ("settings", VArr []) ])
  /\ tasks (todo (store one_task_world)) = [stored_task "t1" "Read"]
  /\ tasks (todo (store (snd (handleImport array_settings_host
                                one_task_world))))
     = [stored_task "t1" "Read"; stored_task "t2" "Write"]
  /\ alert (snd (handleImport array_settings_host one_task_world))
     = {| modalVisible := true;
          alertTitle := "Import Successful";
          alertMessage := "1 new tasks merged.";
          alertType := success |}
  /\ store (snd (handleImport array_settings_host one_task_world))
     <> store one_task_world.
Proof.
  split; [apply picking_host_picks|].
  repeat split; try reflexivity. discriminate.
Qed.

(** * The tests of the repository and other runs *)

Example test_set_theme_mode :
  themeMode (settingsReducer defaultState (SetThemeMode dark)) = dark.
Proof. reflexivity. Qed.

Example test_add_subject :
  subjects (settingsReducer defaultState (AddSubject "Biology"))
  = ["Physics"; "Chemistry"; "Math"; "Biology"].
Proof. reflexivity. Qed.

Example test_no_duplicate_subject :
  settingsReducer defaultState (AddSubject "Physics") = defaultState.
Proof. reflexivity. Qed.

Example test_delete_subject :
  subjects (settingsReducer defaultState (DeleteSubject "Chemistry"))
  = ["Physics"; "Math"].
Proof. reflexivity. Qed.

Example test_clear_settings :
  settingsReducer
    {| themeMode := dark; subjects := ["Art"; "Music"];
       notificationTime := Some "08:00" |} ClearSettings
  = defaultState.
Proof. reflexivity. Qed.

Example test_load_partial_settings :
  settingsReducer defaultState
    (LoadSettings {| p_themeMode := Some light;
                     p_subjects := Some ["History"];
                     p_notificationTime := None |})
  = {| themeMode := light; subjects := ["History"];
       notificationTime := None |}.
Proof. reflexivity. Qed.

Example test_merge_settings :
  settingsReducer
    {| themeMode := system; subjects := ["Physics"; "Chemistry"];
       notificationTime := None |}
    (MergeSettings {| p_themeMode := Some dark;
                      p_subjects := Some ["Physics"; "Biology"];
                      p_notificationTime := Some (Some "07:00") |})
  = {| themeMode := dark; subjects := ["Physics"; "Chemistry"; "Biology"];
       notificationTime := Some "07:00" |}.
Proof. reflexivity. Qed.

Example test_nothing_stored :
  loadSettingsFromStorage
    (storage_host None (fun _ => Throw {| message := "unused" |}))
  = Return (SettingsState_object defaultState).
Proof. reflexivity. Qed.

Example test_stored_values :
  loadSettingsFromStorage
    (storage_host (Some "stored")
       (fun _ =>
          Return (VObj [ ("themeMode", VStr "dark");
                         ("subjects", VArr [VStr "Biology"; VStr "History"]);
                         ("notificationTime", VStr "08:30") ])))
  = Return [ ("themeMode", VStr "dark");
             ("subjects", VArr [VStr "Biology"; VStr "History"]);
             ("notificationTime", VStr "08:30") ].
Proof. reflexivity. Qed.

Example test_corrupted_json :
  loadSettingsFromStorage
    (storage_host (Some "not-a-valid-json")
       (fun _ => Throw {| message := "JSON Parse error" |}))
  = Return (SettingsState_object defaultState).
Proof. reflexivity. Qed.

(** A stored record that parses to [null] makes the property reads throw;
    the defaults come back all the same. *)
Example stored_null_gives_defaults :
  loadSettingsFromStorage (storage_host (Some "null") (fun _ => Return VNull))
  = Return (SettingsState_object defaultState).
Proof. reflexivity. Qed.

(** The import flow hands a backup with twin entries to [mergeTasks]
    whole. *)
Example handleImport_twins :
  tasks (todo (store (snd (handleImport twins_host empty_world))))
  = objects [twin "one"; twin "two"]
  /\ alert (snd (handleImport twins_host empty_world)) = import_successful 2.
Proof. split; reflexivity. Qed.

Example toggleTask_twice :
  let once := toggleTask "2025-07-12T09:00:00.000Z"
                {| tasks := [stored_task "t1" "Read"] |} "t1" in
  map (get "completed") (tasks once) = [Some (VBool true)]
  /\ map (get "completedAt") (tasks once)
     = [Some (VStr "2025-07-12T09:00:00.000Z")]
  /\ toggleTask "2025-07-12T10:00:00.000Z" once "t1"
     = {| tasks := [stored_task "t1" "Read"] |}.
Proof. repeat split. Qed.

Example deleteTask_by_id :
  deleteTask {| tasks := [stored_task "t1" "Read"; stored_task "t2" "Write"] |}
    "t1"
  = {| tasks := [stored_task "t2" "Write"] |}.
Proof. reflexivity. Qed.

(* ====================================================================== *)
(** * More on the task store *)
(* ====================================================================== *)

Lemma set_keeps_string (k k' : string) (v : string) (o : object) :
  (exists s, get k o = Some (VStr s)) ->
  exists s, get k (set k' (VStr v) o) = Some (VStr s).
Proof.
  intros Hk. destruct (string_dec k' k) as [->|Hne].
  - exists v. apply get_set_same.
  - now rewrite get_set_other.
Qed.

Lemma In_update_first (p : Task -> bool) (f : Task -> Task) (l : list Task)
    (t : Task) :
  In t (update_first p f l) -> In t l \/ exists t0, In t0 l /\ t = f t0.
Proof.
  induction l as [|x l IH]; simpl; [tauto|].
  destruct (p x); simpl.
  - intros [<-|Hin]; [right; exists x; tauto|tauto].
  - intros [<-|Hin]; [tauto|].
    destruct (IH Hin) as [H|[t0 [H0 H1]]]; [tauto|].
    right. exists t0. tauto.
Qed.

Lemma In_objects (l : list value) (o : object) :
  In o (objects l) <-> In (VObj o) l.
Proof.
  induction l as [|[|b|n|s|items|o'] l IH]; simpl;
    try (rewrite IH; split; [tauto|intros [E|H]; [discriminate|assumption]]).
  - tauto.
  - rewrite IH. split; intros [E|H]; try tauto; left; congruence.
Qed.

(** A task keeps passing the check when properties outside the five
    required ones are assigned, or when a string is assigned. *)
Lemma isValidTask_set (k : string) (v : value) (o : object) :
  isValidTask (VObj o) = true ->
  (exists s, v = VStr s)
  \/ (k <> "id" /\ k <> "text" /\ k <> "subject" /\ k <> "priority"
      /\ k <> "createdAt") ->
  isValidTask (VObj (set k v o)) = true.
Proof.
  intros Hv Hk. apply isValidTask_true in Hv.
  destruct Hv as [o' [E [Hid [Htx [Hsu [Hpr Hcr]]]]]].
  injection E as <-. apply isValidTask_true. exists (set k v o).
  split; [reflexivity|]. destruct Hk as [[s ->]|[H1 [H2 [H3 [H4 H5]]]]].
  - repeat split; now apply set_keeps_string.
  - repeat split; now rewrite get_set_other.
Qed.

(** X1.  Every operation of the task store keeps the collection
    well-formed: if every task passes the required-string-field check
    before, every task passes it after. *)
Theorem todoReducer_keeps_tasks_valid (uuid now : string)
    (state : TodoState) (a : TodoAction) :
  all_valid (tasks state) ->
  all_valid (tasks (todoReducer uuid now state a)).
Proof.
  intros Hall. destruct a as [p|p|id|id|payload|]; simpl; intros t Hin.
  - apply in_app_or in Hin. destruct Hin as [Hin|[<-|[]]].
    + now apply Hall.
    + reflexivity.
  - apply In_update_first in Hin.
    destruct Hin as [Hin|[t0 [Hin ->]]]; [now apply Hall|].
    repeat (apply isValidTask_set; [|left; eexists; reflexivity]).
    now apply Hall.
  - apply In_update_first in Hin.
    destruct Hin as [Hin|[t0 [Hin ->]]]; [now apply Hall|].
    repeat (apply isValidTask_set;
            [|right; repeat split; discriminate]).
    now apply Hall.
  - apply filter_In in Hin. now apply Hall.
  - apply in_app_or in Hin. destruct Hin as [Hin|Hin]; [now apply Hall|].
    apply In_objects in Hin. apply filter_In in Hin.
    destruct Hin as [Hin _]. apply filter_In in Hin. tauto.
  - destruct Hin.
Qed.

Lemma one_stored_task_valid : all_valid [stored_task "t1" "Read"].
Proof. intros t [<-|[]]. reflexivity. Defined.

Lemma todoReducer_keeps_tasks_valid_witness :
  all_valid [stored_task "t1" "Read"]
  /\ all_valid
       (tasks (todoReducer "u-2" "2025-07-12T09:00:00.000Z"
                 {| tasks := [stored_task "t1" "Read"] |}
                 (EditTask {| edit_id := "t1"; edit_text := "Read more";
                              edit_priority := "Low";
                              edit_subject := "Math" |}))).
Proof.
  split; [exact one_stored_task_valid|].
  apply (@todoReducer_keeps_tasks_valid "u-2" "2025-07-12T09:00:00.000Z"
           {| tasks := [stored_task "t1" "Read"] |}
           (EditTask {| edit_id := "t1"; edit_text := "Read more";
                        edit_priority := "Low"; edit_subject := "Math" |})).
  exact one_stored_task_valid.
Defined.

(** After a merge, nothing of the payload is still new. *)
Lemma mergeTasks_leaves_nothing_fresh (state : TodoState)
    (payload : list value) :
  filter (fresh_valid (tasks (mergeTasks state payload))) payload = [].
Proof.
  apply filter_nil_iff. intros t Hin. unfold fresh_valid.
  destruct (isValidTask t) eqn:Hv; [|reflexivity].
  rewrite andb_true_l. apply negb_false_iff.
  rewrite (proj1 (mergeTasks_added state payload)).
  pose proof Hv as Hv'. apply isValidTask_true in Hv'.
  destruct Hv' as [o [-> [[s Hs] _]]]. simpl member. rewrite Hs.
  apply Set_has_string. rewrite map_app. apply in_or_app.
  destruct (Set_has (map (get "id") (tasks state)) (Some (VStr s))) eqn:E.
  - left. now apply Set_has_string.
  - right. rewrite <- Hs. apply in_map. apply In_objects.
    apply filter_In. split; [assumption|]. unfold fresh_valid.
    rewrite Hv. simpl. rewrite Hs, E. reflexivity.
Qed.

(** X2.  Merging the same payload a second time adds nothing: after one
    merge every valid incoming identifier is in the collection. *)
Theorem mergeTasks_idempotent (state : TodoState) (payload : list value) :
  mergeTasks (mergeTasks state payload) payload = mergeTasks state payload.
Proof.
  pose proof (mergeTasks_leaves_nothing_fresh state payload) as Hnone.
  remember (mergeTasks state payload) as merged eqn:E1.
  destruct (mergeTasks_added merged payload) as [Htasks _].
  rewrite Hnone in Htasks. change (objects []) with (@nil object) in Htasks.
  rewrite app_nil_r in Htasks.
  destruct (mergeTasks merged payload) as [l]. destruct merged as [l'].
  simpl in Htasks. now rewrite Htasks.
Qed.

(** X3.  [toggleTask] changes the [completed] and [completedAt] of the
    first task whose identifier is the payload's, and nothing else.  The
    flag is negated; [completedAt] becomes the time of the call when the
    task is now completed and [null] when it is not.  Where no task has the
    identifier, the state is as before. *)
Theorem toggleTask_frame (now : string) (state : TodoState) (id : string) :
  ((forall t, In t (tasks state) -> get "id" t <> Some (VStr id))
   /\ toggleTask now state id = state)
  \/ exists before task task' after,
       tasks state = before ++ task :: after
       /\ (forall t, In t before -> get "id" t <> Some (VStr id))
       /\ get "id" task = Some (VStr id)
       /\ tasks (toggleTask now state id) = before ++ task' :: after
       /\ get "completed" task'
          = Some (VBool (negb (truthy (get "completed" task))))
       /\ get "completedAt" task'
          = Some (if truthy (get "completed" task) then VNull else VStr now)
       /\ (forall k, k <> "completed" -> k <> "completedAt" ->
             get k task' = get k task).
Proof.
  set (f := fun task : Task =>
              let completed := negb (truthy (get "completed" task)) in
              set "completedAt" (if completed then VStr now else VNull)
                (set "completed" (VBool completed) task)).
  destruct (update_first_split (id_is id) f (tasks state))
    as [[Hall Heq]|[before [task [after [Hl [Hb [Hp Hu]]]]]]].
  - left. split.
    + intros t Hin Hid. apply id_is_true in Hid.
      rewrite (Hall t Hin) in Hid. discriminate.
    + unfold toggleTask. fold f. rewrite Heq. now destruct state.
  - right. exists before, task, (f task), after.
    split; [exact Hl|]. split.
    { intros t Hin Hid. apply id_is_true in Hid.
      rewrite (Hb t Hin) in Hid. discriminate. }
    split; [now apply id_is_true|]. split; [exact Hu|].
    unfold f. cbv zeta. split.
    { rewrite get_set_other by discriminate. apply get_set_same. }
    split.
    { rewrite get_set_same. now destruct (truthy (get "completed" task)). }
    intros k H1 H2. rewrite !get_set_other; congruence.
Qed.

(** X4.  [editTask] and [toggleTask] never add, remove or reorder tasks:
    the identifiers of the collection, in order, are as before. *)
Theorem edit_and_toggle_keep_the_identifiers (now : string)
    (state : TodoState) (payload : EditTaskPayload) (id : string) :
  map (get "id") (tasks (editTask state payload))
  = map (get "id") (tasks state)
  /\ map (get "id") (tasks (toggleTask now state id))
     = map (get "id") (tasks state)
  /\ List.length (tasks (editTask state payload)) = List.length (tasks state)
  /\ List.length (tasks (toggleTask now state id))
     = List.length (tasks state).
Proof.
  assert (He : map (get "id") (tasks (editTask state payload))
               = map (get "id") (tasks state)).
  { unfold editTask. simpl. apply update_first_ids.
    intros t. now rewrite !get_set_other by discriminate. }
  assert (Ht : map (get "id") (tasks (toggleTask now state id))
               = map (get "id") (tasks state)).
  { unfold toggleTask. simpl. apply update_first_ids.
    intros t. now rewrite !get_set_other by discriminate. }
  repeat split; try assumption.
  - rewrite <- (length_map (get "id")), He. apply length_map.
  - rewrite <- (length_map (get "id")), Ht. apply length_map.
Qed.

Lemma set_same (k : string) (v : value) (o : object) :
  get k o = Some v -> set k v o = o.
Proof.
  induction o as [|[k' v'] o IH]; simpl; [discriminate|].
  destruct (String.eqb k' k) eqn:E.
  - intros [= ->]. apply String.eqb_eq in E. now subst.
  - intros Hg. now rewrite IH.
Qed.

Lemma update_first_compose (p : Task -> bool) (f g : Task -> Task)
    (l : list Task) :
  (forall t, p (f t) = p t) ->
  update_first p g (update_first p f l)
  = update_first p (fun t => g (f t)) l.
Proof.
  intros Hp. induction l as [|t l IH]; [reflexivity|]. simpl.
  destruct (p t) eqn:E; simpl.
  - now rewrite Hp, E.
  - now rewrite E, IH.
Qed.

Lemma update_first_ext (p : Task -> bool) (f g : Task -> Task)
    (l : list Task) :
  (forall t, In t l -> f t = g t) -> update_first p f l = update_first p g l.
Proof.
  induction l as [|t l IH]; intros Hfg; [reflexivity|]. simpl.
  destruct (p t).
  - now rewrite (Hfg t (or_introl eq_refl)).
  - f_equal. apply IH. intros t' Hin. apply Hfg. now right.
Qed.

Lemma update_first_get (p : Task -> bool) (f : Task -> Task) (k : string)
    (l : list Task) :
  (forall t, In t l -> get k (f t) = get k t) ->
  map (get k) (update_first p f l) = map (get k) l.
Proof.
  induction l as [|t l IH]; intros Hf; [reflexivity|]. simpl.
  destruct (p t); simpl.
  - now rewrite (Hf t (or_introl eq_refl)).
  - f_equal. apply IH. intros t' Hin. apply Hf. now right.
Qed.

(** X5.  Toggling a task twice brings the collection back, except for
    [completedAt]: where every [completed] is a boolean, each property
    other than [completedAt] of each task is as before the two toggles. *)
Theorem toggleTask_twice_restores (now now' : string) (state : TodoState)
    (id k : string) :
  (forall t, In t (tasks state) ->
     exists b, get "completed" t = Some (VBool b)) ->
  k <> "completedAt" ->
  map (get k) (tasks (toggleTask now' (toggleTask now state id) id))
  = map (get k) (tasks state).
Proof.
  intros Hbool Hk. unfold toggleTask. simpl.
  rewrite update_first_compose.
  - apply update_first_get. intros t Hin.
    destruct (Hbool t Hin) as [b Hb].
    destruct (string_dec k "completed") as [->|Hne].
    + rewrite get_set_other by discriminate. rewrite get_set_same.
      rewrite get_set_other by discriminate. rewrite get_set_same.
      rewrite Hb. simpl. now rewrite negb_involutive.
    + rewrite !get_set_other; congruence.
  - intros t. unfold id_is. now rewrite !get_set_other by discriminate.
Qed.

Lemma toggleTask_twice_restores_witness :
  map (get "completed")
    (tasks (toggleTask "2025-07-12T10:00:00.000Z"
              (toggleTask "2025-07-12T09:00:00.000Z"
                 {| tasks := [stored_task "t1" "Read"] |} "t1") "t1"))
  = [Some (VBool false)].
Proof.
  apply (@toggleTask_twice_restores "2025-07-12T09:00:00.000Z"
           "2025-07-12T10:00:00.000Z"
           {| tasks := [stored_task "t1" "Read"] |} "t1" "completed").
  - intros t [<-|[]]. exists false. reflexivity.
  - discriminate.
Defined.

(** X6.  Editing twice with the same payload is editing once. *)
Theorem editTask_idempotent (state : TodoState) (payload : EditTaskPayload) :
  editTask (editTask state payload) payload = editTask state payload.
Proof.
  unfold editTask. simpl. f_equal. rewrite update_first_compose.
  - apply update_first_ext. intros t _.
    set (e := set "subject" (VStr (edit_subject payload))
                (set "priority" (VStr (edit_priority payload))
                   (set "text" (VStr (edit_text payload)) t))).
    assert (Ht : set "text" (VStr (edit_text payload)) e = e).
    { apply set_same. unfold e.
      rewrite !get_set_other by discriminate. apply get_set_same. }
    assert (Hp : set "priority" (VStr (edit_priority payload)) e = e).
    { apply set_same. unfold e.
      rewrite get_set_other by discriminate. apply get_set_same. }
    assert (Hs : set "subject" (VStr (edit_subject payload)) e = e).
    { apply set_same. apply get_set_same. }
    now rewrite Ht, Hp, Hs.
  - intros t. unfold id_is. now rewrite !get_set_other by discriminate.
Qed.

(** X7.  [deleteTask] removes the tasks whose identifier is the payload's
    and no other.  Where identifiers are unique and a task has the
    identifier, exactly that task goes and the rest keep their order; where
    no task has it, the state is as before. *)
Theorem deleteTask_removes_the_id (state : TodoState) (id : string) :
  (forall t, In t (tasks (deleteTask state id))
             <-> In t (tasks state) /\ get "id" t <> Some (VStr id))
  /\ (unique_ids (tasks state) ->
      forall t, In t (tasks state) -> get "id" t = Some (VStr id) ->
        exists before after,
          tasks state = before ++ t :: after
          /\ tasks (deleteTask state id) = before ++ after)
  /\ ((forall t, In t (tasks state) -> get "id" t <> Some (VStr id)) ->
      deleteTask state id = state).
Proof.
  assert (Hkeep : forall t, negb (id_is id t) = true
                            <-> get "id" t <> Some (VStr id)).
  { intros t. rewrite negb_true_iff, <- id_is_true.
    destruct (id_is id t); split; congruence. }
  assert (Hnone : forall l,
             (forall t, In t l -> get "id" t <> Some (VStr id)) ->
             filter (fun t => negb (id_is id t)) l = l).
  { intros l Hl. apply filter_all. intros t Hin. apply Hkeep.
    now apply Hl. }
  split; [|split].
  - intros t. unfold deleteTask. simpl. rewrite filter_In.
    now rewrite Hkeep.
  - intros Hnd t Hin Hid. apply in_split in Hin.
    destruct Hin as [before [after Hl]]. exists before, after.
    split; [assumption|]. unfold deleteTask, unique_ids in *. simpl.
    rewrite Hl in Hnd |- *. rewrite map_app in Hnd. simpl in Hnd.
    apply NoDup_remove_2 in Hnd. rewrite filter_app. simpl.
    assert (Ht : negb (id_is id t) = false).
    { apply negb_false_iff. now apply id_is_true. }
    rewrite Ht.
    assert (Hother : forall x, In x before \/ In x after ->
                       get "id" x <> Some (VStr id)).
    { intros x Hx Hxid. apply Hnd. rewrite Hid, <- Hxid, <- map_app.
      apply in_map. apply in_or_app. exact Hx. }
    rewrite (Hnone before), (Hnone after); [reflexivity| |];
      intros x Hx; apply Hother; tauto.
  - intros Hall. unfold deleteTask. rewrite (Hnone _ Hall).
    now destruct state.
Qed.

(** X8.  Deleting a task just added, by the identifier it was given,
    brings the collection back, provided that identifier was fresh. *)
Theorem addTask_then_deleteTask (uuid now : string) (state : TodoState)
    (payload : AddTaskPayload) :
  (forall t, In t (tasks state) -> get "id" t <> Some (VStr uuid)) ->
  deleteTask (addTask uuid now state payload) uuid = state.
Proof.
  intros Hfresh. unfold deleteTask, addTask. simpl. rewrite filter_app.
  simpl. unfold id_is at 2. simpl. rewrite String.eqb_refl. simpl.
  rewrite app_nil_r, filter_all; [now destruct state|].
  intros t Hin. apply negb_true_iff.
  destruct (id_is uuid t) eqn:E; [|reflexivity].
  apply id_is_true in E. now apply Hfresh in E.
Qed.

Lemma addTask_then_deleteTask_witness :
  deleteTask
    (addTask "u-2" "2025-07-12T09:00:00.000Z"
       {| tasks := [stored_task "t1" "Read"] |}
       {| add_text := "Write"; add_subject := "Math";
          add_priority := "Low"; add_createdAt := Some "2025-07-12" |})
    "u-2"
  = {| tasks := [stored_task "t1" "Read"] |}.
Proof.
  apply (@addTask_then_deleteTask "u-2" "2025-07-12T09:00:00.000Z"
           {| tasks := [stored_task "t1" "Read"] |}
           {| add_text := "Write"; add_subject := "Math";
              add_priority := "Low"; add_createdAt := Some "2025-07-12" |}).
  intros t [<-|[]]. discriminate.
Defined.

(* ====================================================================== *)
(** * More on the settings store *)
(* ====================================================================== *)

Lemma fold_Set_add_fresh (l acc : list string) :
  NoDup (acc ++ l) -> fold_left Set_add l acc = acc ++ l.
Proof.
  revert acc. induction l as [|x l IH]; intros acc Hnd; simpl.
  - now rewrite app_nil_r.
  - assert (Hx : includes acc x = false).
    { apply includes_false. apply NoDup_remove_2 in Hnd.
      intros Hin. apply Hnd. apply in_or_app. now left. }
    unfold Set_add at 2. rewrite Hx.
    replace (acc ++ x :: l) with ((acc ++ [x]) ++ l) in *
      by (now rewrite <- app_assoc).
    now apply IH.
Qed.

Lemma fold_Set_add_known (l acc : list string) :
  (forall x, In x l -> In x acc) -> fold_left Set_add l acc = acc.
Proof.
  induction l as [|x l IH]; intros Hall; [reflexivity|]. simpl.
  unfold Set_add at 2.
  rewrite (proj2 (includes_true acc x) (Hall x (or_introl eq_refl))).
  apply IH. intros y Hy. apply Hall. now right.
Qed.

Lemma fold_Set_add_prefix (l a b : list string) :
  fold_left Set_add l (a ++ b)
  = a ++ fold_left Set_add (filter (fun x => negb (includes a x)) l) b.
Proof.
  revert b. induction l as [|x l IH]; intros b; [reflexivity|]. simpl.
  destruct (includes a x) eqn:Ea; simpl.
  - unfold Set_add at 2.
    rewrite (proj2 (includes_true (a ++ b) x)); [apply IH|].
    apply in_or_app. left. now apply includes_true.
  - unfold Set_add at 2. unfold Set_add at 3.
    destruct (includes b x) eqn:Eb.
    + rewrite (proj2 (includes_true (a ++ b) x)); [apply IH|].
      apply in_or_app. right. now apply includes_true.
    + rewrite (proj2 (includes_false (a ++ b) x)).
      * rewrite <- app_assoc. apply IH.
      * intros Hin. apply in_app_or in Hin. destruct Hin as [Hin|Hin].
        -- apply includes_true in Hin. congruence.
        -- apply includes_true in Hin. congruence.
Qed.

Lemma new_Set_app_NoDup (a l : list string) :
  NoDup a -> new_Set (a ++ l) = fold_left Set_add l a.
Proof.
  intros Hnd. unfold new_Set. rewrite fold_left_app. f_equal.
  now apply (fold_Set_add_fresh a []).
Qed.

(** X9.  A merge keeps the current subjects where they are and puts the
    incoming subjects that are new behind them, each once, in the order of
    their first occurrence in the payload. *)
Theorem mergeSettings_appends_new_subjects (state : SettingsState)
    (incoming : PartialSettings) (l : list string) :
  NoDup (subjects state) ->
  p_subjects incoming = Some l ->
  subjects (mergeSettings state incoming)
  = subjects state
    ++ new_Set (filter (fun x => negb (includes (subjects state) x)) l).
Proof.
  intros Hnd Hl. unfold mergeSettings. simpl. rewrite Hl.
  unfold Array_from. rewrite (new_Set_app_NoDup l Hnd).
  rewrite <- (app_nil_r (subjects state)) at 1.
  apply fold_Set_add_prefix.
Qed.

Lemma mergeSettings_appends_new_subjects_witness :
  subjects
    (mergeSettings defaultState
       {| p_themeMode := None;
          p_subjects := Some ["Biology"; "Math"; "Art"; "Biology"];
          p_notificationTime := None |})
  = ["Physics"; "Chemistry"; "Math"; "Biology"; "Art"].
Proof.
  apply (@mergeSettings_appends_new_subjects defaultState
           {| p_themeMode := None;
              p_subjects := Some ["Biology"; "Math"; "Art"; "Biology"];
              p_notificationTime := None |}
           ["Biology"; "Math"; "Art"; "Biology"] defaultState_NoDup).
  reflexivity.
Defined.

(** X10.  Merging the same settings a second time changes nothing. *)
Theorem mergeSettings_idempotent (state : SettingsState)
    (incoming : PartialSettings) :
  mergeSettings (mergeSettings state incoming) incoming
  = mergeSettings state incoming.
Proof.
  unfold mergeSettings. simpl.
  destruct (p_themeMode incoming) as [[| |]|],
    (p_notificationTime incoming) as [t|],
    (p_subjects incoming) as [l|]; simpl; try reflexivity;
    f_equal; unfold Array_from;
    rewrite (new_Set_app_NoDup l (new_Set_NoDup (subjects state ++ l)));
    apply fold_Set_add_known; intros x Hx; apply new_Set_In;
    apply in_or_app; now right.
Qed.

(** X11.  [addSubject] adds a label once: a label that is there leaves
    the state as it is, a label that is not goes to the end, and adding it
    again changes nothing. *)
Theorem addSubject_adds_once (state : SettingsState) (label : string) :
  (In label (subjects state) -> addSubject state label = state)
  /\ (~ In label (subjects state) ->
      subjects (addSubject state label) = subjects state ++ [label])
  /\ In label (subjects (addSubject state label))
  /\ addSubject (addSubject state label) label = addSubject state label.
Proof.
  assert (Hin : In label (subjects (addSubject state label))).
  { unfold addSubject.
    destruct (includes (subjects state) label) eqn:E; simpl.
    - now apply includes_true.
    - apply in_or_app. right. now left. }
  split; [|split; [|split]].
  - intros H. unfold addSubject.
    now rewrite (proj2 (includes_true _ _) H).
  - intros H. unfold addSubject.
    now rewrite (proj2 (includes_false _ _) H).
  - exact Hin.
  - unfold addSubject at 1.
    now rewrite (proj2 (includes_true _ _) Hin).
Qed.

(** X12.  Deleting a subject just added brings the list back, provided
    the label was not there before. *)
Theorem addSubject_then_deleteSubject (state : SettingsState)
    (label : string) :
  ~ In label (subjects state) ->
  deleteSubject (addSubject state label) label = state.
Proof.
  intros Hnotin. unfold addSubject.
  rewrite (proj2 (includes_false _ _) Hnotin). unfold deleteSubject. simpl.
  rewrite filter_app. simpl. rewrite String.eqb_refl. simpl.
  rewrite app_nil_r, filter_all; [now destruct state|].
  intros x Hx. apply keep_other_true. intros ->. contradiction.
Qed.

Lemma addSubject_then_deleteSubject_witness :
  deleteSubject (addSubject defaultState "Biology") "Biology" = defaultState.
Proof.
  apply (@addSubject_then_deleteSubject defaultState "Biology").
  simpl. intuition discriminate.
Defined.

(* ====================================================================== *)
(** * More on the import flow *)
(* ====================================================================== *)

Lemma no_fresh_all_known (current : list Task) (backup_tasks : list value) :
  filter (fresh_valid current) backup_tasks = [] ->
  all_known current backup_tasks.
Proof.
  intros Hnil t Hin Hv.
  pose proof (proj1 (filter_nil_iff _ _) Hnil t Hin) as Hf.
  unfold fresh_valid in Hf. rewrite Hv in Hf. simpl in Hf.
  apply negb_false_iff in Hf.
  apply isValidTask_true in Hv. destruct Hv as [o [-> [[s Hs] _]]].
  simpl in *. rewrite Hs in *. apply Set_has_string in Hf.
  apply in_map_iff in Hf. destruct Hf as [t0 [Ht0 Hin0]].
  exists t0. now split.
Qed.

Lemma fresh_valid_of_valid (current : list Task) (l : list value) :
  filter (fresh_valid current) (filter isValidTask l)
  = filter (fresh_valid current) l.
Proof.
  rewrite filter_filter. apply filter_ext. intros t. unfold fresh_valid.
  now destruct (isValidTask t).
Qed.

Lemma length_objects_valid (current : list Task) (l : list value) :
  List.length (objects (filter (fresh_valid current) l))
  = List.length (filter (fresh_valid current) l).
Proof.
  rewrite <- (length_map VObj). f_equal. apply objects_lossless.
  intros t Hin. apply filter_In in Hin. destruct Hin as [_ Hf].
  unfold fresh_valid in Hf. now apply andb_true_iff in Hf.
Qed.

(** X13.  [handleImport] always returns, and it leaves one of three
    worlds: the world as it was (nothing picked); the store as it was with
    the "Nothing to Import" or the "Import Failed" alert; or the store after
    exactly the two merges, with the "Import Successful" alert.  The store
    never changes without the success alert. *)
Theorem handleImport_outcomes (H : Host) (w : World) :
  exists w',
    handleImport H w = (Return tt, w')
    /\ (w' = w
        \/ (store w' = store w
            /\ dispatched w' = dispatched w
            /\ (alert w' = nothing_to_import
                \/ exists e, alert w' = import_failed e))
        \/ exists n payload incoming,
             0 < n
             /\ alert w' = import_successful n
             /\ dispatched w'
                = dispatched w
                  ++ [todo_action (MergeTasks payload);
                      settings_action (MergeSettings incoming)]
             /\ store w'
                = rootReducer H
                    (rootReducer H (store w)
                       (todo_action (MergeTasks payload)))
                    (settings_action (MergeSettings incoming))).
Proof.
  assert (Hfail : forall e,
            exists w',
              showAlert error "Import Failed"
                (alertMessage (import_failed e)) w = (Return tt, w')
              /\ (w' = w
                  \/ (store w' = store w
                      /\ dispatched w' = dispatched w
                      /\ (alert w' = nothing_to_import
                          \/ exists e, alert w' = import_failed e))
                  \/ exists n payload incoming,
                       0 < n
                       /\ alert w' = import_successful n
                       /\ dispatched w'
                          = dispatched w
                            ++ [todo_action (MergeTasks payload);
                                settings_action (MergeSettings incoming)]
                       /\ store w'
                          = rootReducer H
                              (rootReducer H (store w)
                                 (todo_action (MergeTasks payload)))
                              (settings_action (MergeSettings incoming)))).
  { intros e. eexists. split; [reflexivity|]. right. left. simpl.
    repeat split. right. now exists e. }
  destruct (DocumentPicker_getDocumentAsync H) as [picked|e] eqn:Hpick.
  2:{ unfold handleImport, try_catch, handleImport_try, bind, lift.
      rewrite Hpick. apply Hfail. }
  destruct (canceled picked) eqn:Hc.
  { exists w. split; [|now left].
    unfold handleImport, try_catch, handleImport_try, bind, lift.
    rewrite Hpick, Hc. reflexivity. }
  destruct (assets picked) as [[|file rest]|] eqn:Ha;
    try (exists w; split; [|now left];
         unfold handleImport, try_catch, handleImport_try, bind, lift;
         rewrite Hpick, Hc, Ha; reflexivity).
  destruct (FileSystem_readAsStringAsync H (uri file)) as [content|e]
    eqn:Hread.
  2:{ unfold handleImport, try_catch, handleImport_try, bind, lift.
      rewrite Hpick, Hc, Ha. simpl. rewrite Hread. apply Hfail. }
  assert (Hp : picks_file H content).
  { exists picked, file, rest. tauto. }
  rewrite (handleImport_picked w Hp).
  destruct (JSON_parse H content) as [parsed|e]; [|apply Hfail].
  destruct (property H parsed "tasks") as [parsed_tasks|e]; [|apply Hfail].
  destruct (Array_isArray parsed_tasks); simpl negb; cbv iota;
    [|apply (Hfail
               {| message := "Invalid format: 'tasks' array missing." |})].
  destruct (property H parsed "settings") as [parsed_settings|e];
    [|apply Hfail].
  destruct (is_object parsed_settings); simpl negb; cbv iota;
    [|apply (Hfail
               {| message := "Invalid format: 'settings' object missing." |})].
  cbv zeta.
  destruct (Nat.eqb
              (List.length
                 (filter (fresh_valid (tasks (todo (store w))))
                    (elements parsed_tasks))) 0) eqn:E.
  - eexists. split; [reflexivity|]. right. left. simpl.
    repeat split. now left.
  - eexists. split; [reflexivity|]. right. right.
    exists (List.length
              (filter (fresh_valid (tasks (todo (store w))))
                 (elements parsed_tasks))).
    eexists. eexists. apply Nat.eqb_neq in E. split; [lia|].
    simpl. rewrite <- app_assoc. repeat split.
Qed.

(** X14.  When the user cancels the picker, or the picker gives no file,
    [handleImport] changes nothing at all: store, dispatched actions and
    alert are as before. *)
Theorem handleImport_cancelled (H : Host) (picked : DocumentPickerResult)
    (w : World) :
  DocumentPicker_getDocumentAsync H = Return picked ->
  canceled picked = true \/ assets picked = None \/ assets picked = Some [] ->
  handleImport H w = (Return tt, w).
Proof.
  intros Hpick Hnone.
  unfold handleImport, try_catch, handleImport_try, bind, lift.
  rewrite Hpick. destruct Hnone as [Hc|[Ha|Ha]].
  - rewrite Hc. reflexivity.
  - rewrite Ha, orb_true_r. reflexivity.
  - rewrite Ha, orb_true_r. reflexivity.
Qed.

Lemma handleImport_cancelled_witness :
  handleImport
    (storage_host None (fun _ => Throw {| message := "unused" |}))
    one_task_world
  = (Return tt, one_task_world).
Proof.
  apply (@handleImport_cancelled
           (storage_host None (fun _ => Throw {| message := "unused" |}))
           {| canceled := true; assets := None |} one_task_world).
  - reflexivity.
  - now left.
Defined.

(** X15.  When the picker itself fails, or the picked file cannot be
    read, [handleImport] shows "Import Failed" with the message of the
    error (or "Could not import data." when that is empty) and leaves the
    store as it was. *)
Theorem handleImport_host_failure (H : Host) (e : Error) (w : World) :
  DocumentPicker_getDocumentAsync H = Throw e
  \/ (exists picked file rest,
        DocumentPicker_getDocumentAsync H = Return picked
        /\ canceled picked = false
        /\ assets picked = Some (file :: rest)
        /\ FileSystem_readAsStringAsync H (uri file) = Throw e) ->
  handleImport H w
  = (Return tt,
     {| store := store w;
        dispatched := dispatched w;
        alert := import_failed e |}).
Proof.
  intros [Hpick|[picked [file [rest [Hpick [Hc [Ha Hread]]]]]]];
    unfold handleImport, try_catch, handleImport_try, bind, lift;
    rewrite Hpick.
  - reflexivity.
  - rewrite Hc, Ha. simpl. rewrite Hread. reflexivity.
Qed.

(** X16.  The count in the success alert is the number of tasks the
    import adds: on a backup with at least one new valid task, the
    collection grows by exactly the incoming valid tasks with fresh
    identifiers, and the alert counts them. *)
Theorem handleImport_counts_what_it_adds (H : Host)
    (backup_tasks : list value) (backup_settings : value) (w : World) :
  picks_backup H backup_tasks backup_settings ->
  (exists t, In t backup_tasks
             /\ fresh_valid (tasks (todo (store w))) t = true) ->
  exists n,
    0 < n
    /\ alert (snd (handleImport H w)) = import_successful n
    /\ tasks (todo (store (snd (handleImport H w))))
       = tasks (todo (store w))
         ++ objects (filter (fresh_valid (tasks (todo (store w))))
                       backup_tasks)
    /\ List.length (tasks (todo (store (snd (handleImport H w)))))
       = List.length (tasks (todo (store w))) + n.
Proof.
  intros Hpick Hnew.
  destruct (handleImport_merges w Hpick Hnew) as [n [Hpos [Hn ->]]].
  exists n. split; [assumption|]. split; [reflexivity|]. simpl snd.
  simpl store. simpl todo.
  rewrite (proj1 (mergeTasks_added _ _)), fresh_valid_of_valid.
  split; [reflexivity|].
  now rewrite length_app, length_objects_valid, Hn.
Qed.

Lemma handleImport_counts_what_it_adds_witness :
  exists n,
    0 < n
    /\ alert (snd (handleImport new_backup_host one_task_world))
       = import_successful n
    /\ tasks (todo (store (snd (handleImport new_backup_host
                                  one_task_world))))
       = tasks (todo (store one_task_world))
         ++ objects (filter (fresh_valid (tasks (todo (store one_task_world))))
                       [VObj (stored_task "t1" "Read");
                        VObj (stored_task "t2" "Write")])
    /\ List.length
         (tasks (todo (store (snd (handleImport new_backup_host
                                     one_task_world)))))
       = List.length (tasks (todo (store one_task_world))) + n.
Proof.
  apply (@handleImport_counts_what_it_adds new_backup_host _ _
           one_task_world new_backup_host_picks).
  exists (VObj (stored_task "t2" "Write")). split.
  - right. now left.
  - reflexivity.
Defined.

(** X17.  Importing the same backup a second time brings nothing: the
    second run ends with the "Nothing to Import" warning and leaves the
    store as the first run left it. *)
Theorem handleImport_twice (H : Host) (backup_tasks : list value)
    (backup_settings : value) (w : World) :
  picks_backup H backup_tasks backup_settings ->
  handleImport H (snd (handleImport H w))
  = (Return tt,
     {| store := store (snd (handleImport H w));
        dispatched := dispatched (snd (handleImport H w));
        alert := nothing_to_import |}).
Proof.
  intros Hpick. apply (handleImport_nothing_new _ Hpick).
  destruct (filter (fresh_valid (tasks (todo (store w)))) backup_tasks)
    as [|t new] eqn:E.
  - pose proof (no_fresh_all_known _ _ E) as Hknown.
    now rewrite (handleImport_nothing_new w Hpick Hknown).
  - assert (Hnew : exists t, In t backup_tasks
                     /\ fresh_valid (tasks (todo (store w))) t = true).
    { exists t. apply filter_In. rewrite E. now left. }
    destruct (handleImport_merges w Hpick Hnew) as [n [_ [_ ->]]].
    simpl. apply no_fresh_all_known.
    rewrite <- fresh_valid_of_valid.
    apply mergeTasks_leaves_nothing_fresh.
Qed.

Lemma handleImport_twice_witness :
  handleImport new_backup_host (snd (handleImport new_backup_host
                                       one_task_world))
  = (Return tt,
     {| store := store (snd (handleImport new_backup_host one_task_world));
        dispatched :=
          dispatched (snd (handleImport new_backup_host one_task_world));
        alert := nothing_to_import |}).
Proof.
  exact (@handleImport_twice new_backup_host _ _ one_task_world
           new_backup_host_picks).
Defined.

Lemma handleImport_host_failure_witness :
  handleImport broken_picker_host one_task_world
  = (Return tt,
     {| store := store one_task_world;
        dispatched := dispatched one_task_world;
        alert :=
          import_failed
            {| message := "Document picker is unavailable" |} |}).
Proof.
  apply (@handleImport_host_failure broken_picker_host
           {| message := "Document picker is unavailable" |}
           one_task_world).
  left. reflexivity.
Defined.

(* ====================================================================== *)
(** * More on loading the settings *)
(* ====================================================================== *)

(** X18.  Whatever the storage holds, [loadSettingsFromStorage] returns
    an object of one shape: a [themeMode] that is not [null], a [subjects]
    that is an array, and a [notificationTime] that is a string or
    [null]. *)
Theorem loadSettingsFromStorage_shape (H : Host) :
  exists theme subjects_list time,
    loadSettingsFromStorage H
    = Return [ ("themeMode", theme);
               ("subjects", VArr subjects_list);
               ("notificationTime", time) ]
    /\ theme <> VNull
    /\ (time = VNull \/ exists t, time = VStr t).
Proof.
  assert (Hdefault : exists theme subjects_list time,
            Return (SettingsState_object defaultState)
            = Return [ ("themeMode", theme);
                       ("subjects", VArr subjects_list);
                       ("notificationTime", time) ]
            /\ theme <> VNull
            /\ (time = VNull \/ exists t, time = VStr t)).
  { do 3 eexists. split; [reflexivity|]. split; [discriminate|now left]. }
  unfold loadSettingsFromStorage, loadSettingsFromStorage_try.
  destruct (AsyncStorage_getItem H STORAGE_KEYS.SETTINGS) as [json|e];
    simpl; [|exact Hdefault].
  assert (Hparsed : forall parsed,
    exists theme subjects_list time,
      match
        result_bind (property H parsed "themeMode") (fun parsed_themeMode =>
        result_bind (property H parsed "subjects") (fun parsed_subjects =>
        result_bind (property H parsed "notificationTime")
          (fun parsed_notificationTime =>
        Return
          [ ("themeMode",
              match parsed_themeMode with
              | None | Some VNull =>
                  VStr (ThemeMode_string (themeMode defaultState))
              | Some v => v
              end);
            ("subjects",
              match parsed_subjects with
              | Some (VArr l) => VArr l
              | _ => VArr (map VStr (subjects defaultState))
              end);
            ("notificationTime",
              match parsed_notificationTime with
              | Some (VStr t) => VStr t
              | _ => match notificationTime defaultState with
                     | Some t => VStr t
                     | None => VNull
                     end
              end) ])))
      with
      | Return r => Return r
      | Throw _ => Return (SettingsState_object defaultState)
      end
      = Return [ ("themeMode", theme);
                 ("subjects", VArr subjects_list);
                 ("notificationTime", time) ]
      /\ theme <> VNull
      /\ (time = VNull \/ exists t, time = VStr t)).
  { intros parsed. destruct parsed as [|b|n|s|l|o];
      try exact Hdefault.
    simpl.
    destruct (get "themeMode" o) as [[|b|n|s|l|o']|];
      destruct (get "subjects" o) as [[|b'|n'|s'|l'|o'']|];
      destruct (get "notificationTime" o) as [[|b''|n''|s''|l''|o''']|];
      do 3 eexists; (split; [reflexivity|]);
      (split; [discriminate|]);
      first [now left | right; eexists; reflexivity]. }
  destruct json as [j|]; [|apply (Hparsed (VObj []))].
  destruct (String.eqb j ""); simpl; [apply (Hparsed (VObj []))|].
  destruct (JSON_parse H j) as [parsed|e]; simpl;
    [apply Hparsed|exact Hdefault].
Qed.

(** X19.  A stored record that holds the three fields of a settings state
    (in any order, among any other keys) is loaded back as that state. *)
Theorem loadSettingsFromStorage_round_trip (H : Host) (json : string)
    (o : object) (s : SettingsState) :
  AsyncStorage_getItem H STORAGE_KEYS.SETTINGS = Return (Some json) ->
  JSON_parse H json = Return (VObj o) ->
  json <> "" ->
  get "themeMode" o = Some (VStr (ThemeMode_string (themeMode s))) ->
  get "subjects" o = Some (VArr (map VStr (subjects s))) ->
  get "notificationTime" o
  = Some (match notificationTime s with Some t => VStr t | None => VNull end) ->
  loadSettingsFromStorage H = Return (SettingsState_object s).
Proof.
  intros Hget Hparse Hne Htheme Hsubjects Htime.
  unfold loadSettingsFromStorage, loadSettingsFromStorage_try.
  rewrite Hget. simpl.
  destruct (String.eqb json "") eqn:E;
    [apply String.eqb_eq in E; contradiction|].
  simpl. rewrite Hparse. simpl. rewrite Htheme, Hsubjects, Htime.
  unfold SettingsState_object.
  now destruct (notificationTime s).
Qed.

Lemma loadSettingsFromStorage_round_trip_witness :
  loadSettingsFromStorage
    (storage_host (Some "stored")
       (fun _ =>
          Return (VObj [ ("notificationTime", VStr "08:30");
                         ("version", VNum 1);
                         ("subjects", VArr [VStr "Biology"; VStr "History"]);
                         ("themeMode", VStr "dark") ])))
  = Return (SettingsState_object
              {| themeMode := dark; subjects := ["Biology"; "History"];
                 notificationTime := Some "08:30" |}).
Proof.
  apply (@loadSettingsFromStorage_round_trip
           (storage_host (Some "stored")
              (fun _ =>
                 Return (VObj [ ("notificationTime", VStr "08:30");
                                ("version", VNum 1);
                                ("subjects",
                                  VArr [VStr "Biology"; VStr "History"]);
                                ("themeMode", VStr "dark") ])))
           "stored"
           [ ("notificationTime", VStr "08:30");
             ("version", VNum 1);
             ("subjects", VArr [VStr "Biology"; VStr "History"]);
             ("themeMode", VStr "dark") ]
           {| themeMode := dark; subjects := ["Biology"; "History"];
              notificationTime := Some "08:30" |});
    try reflexivity.
  discriminate.
Defined.

(* ====================================================================== *)
(** * The callers *)
(* ====================================================================== *)

(** X20.  [confirmDelete] brings both stores to their first shape,
    whatever they held: no task, and the default settings.  An import
    right after it restores the backup: the collection is then exactly the
    valid tasks of the backup, in the order of the file. *)
Theorem confirmDelete_then_import_restores (H : Host) (s : RootState)
    (m : DeleteAllButton.Modals) (backup_tasks : list value)
    (backup_settings : value) (a : AlertState) (log : list Action) :
  picks_backup H backup_tasks backup_settings ->
  (exists t, In t backup_tasks /\ isValidTask t = true) ->
  fst (DeleteAllButton.confirmDelete H s m)
  = {| todo := initialState; settings := defaultState |}
  /\ tasks (todo (store (snd (handleImport H
                                {| store :=
                                     fst (DeleteAllButton.confirmDelete H s m);
                                   dispatched := log;
                                   alert := a |}))))
     = objects (filter isValidTask backup_tasks).
Proof.
  intros Hpick [t [Hin Hv]]. split; [reflexivity|].
  assert (Hfresh : forall x, fresh_valid [] x = isValidTask x).
  { intros x. unfold fresh_valid. simpl. apply andb_true_r. }
  set (w := {| store := fst (DeleteAllButton.confirmDelete H s m);
               dispatched := log; alert := a |}).
  assert (Hnew : exists t, In t backup_tasks
                   /\ fresh_valid (tasks (todo (store w))) t = true).
  { exists t. split; [assumption|]. simpl. now rewrite Hfresh. }
  destruct (handleImport_merges w Hpick Hnew) as [n [_ [_ ->]]].
  simpl snd. simpl store. simpl todo.
  rewrite (proj1 (mergeTasks_added _ _)), fresh_valid_of_valid.
  simpl tasks. simpl app. f_equal. apply filter_ext. exact Hfresh.
Qed.

Lemma confirmDelete_then_import_restores_witness :
  tasks (todo (store (snd (handleImport new_backup_host
                             {| store :=
                                  fst (DeleteAllButton.confirmDelete
                                         new_backup_host
                                         (store one_task_world)
                                         {| DeleteAllButton.modalVisible :=
                                              true;
                                            DeleteAllButton.successVisible :=
                                              false |});
                                dispatched := [];
                                alert := closed_alert |}))))
  = [stored_task "t1" "Read"; stored_task "t2" "Write"].
Proof.
  apply (@confirmDelete_then_import_restores new_backup_host
           (store one_task_world)
           {| DeleteAllButton.modalVisible := true;
              DeleteAllButton.successVisible := false |}
           _ _ closed_alert [] new_backup_host_picks).
  exists (VObj (stored_task "t1" "Read")). split; [now left|reflexivity].
Defined.

(** X21.  The dark theme is used exactly when the user chose dark, or
    chose to follow the system and the system is dark; an explicit choice
    of light or dark does not depend on the system. *)
Theorem useTheme_dark_iff (userPreference : ThemeMode)
    (colorScheme : option string) :
  (useTheme userPreference colorScheme = DarkTheme
   <-> userPreference = dark
       \/ (userPreference = system /\ colorScheme = Some "dark"))
  /\ useTheme light colorScheme = LightTheme
  /\ useTheme dark colorScheme = DarkTheme.
Proof.
  split; [|split; reflexivity].
  destruct userPreference; unfold useTheme; simpl.
  - split; [discriminate|]. intros [E|[E _]]; discriminate.
  - split; [now left|reflexivity].
  - destruct colorScheme as [c|]; simpl.
    + destruct (String.eqb c "dark") eqn:E; simpl.
      * apply String.eqb_eq in E. subst. split; [now right|reflexivity].
      * split; [discriminate|]. intros [E'|[_ [= ->]]]; discriminate.
    + split; [discriminate|]. intros [E|[_ E]]; discriminate.
Qed.

Lemma filter_split_perm {A} (p q r : A -> bool) (l : list A) :
  (forall x, p x = q x || r x) ->
  (forall x, q x && r x = false) ->
  Permutation (filter p l) (filter q l ++ filter r l).
Proof.
  intros Hp Hqr. induction l as [|x l IH]; simpl; [constructor|].
  rewrite Hp. specialize (Hqr x).
  destruct (q x), (r x); simpl in *; try discriminate.
  - now constructor.
  - now apply Permutation_cons_app.
  - assumption.
Qed.

(** X22.  Under any choice of day, priority and subject, the "Completed"
    and the "Pending" lists split the "All" list: each task shown under
    "All" is shown under exactly one of the two. *)
Theorem filteredTasks_status_splits (isSame : option value -> string -> bool)
    (f : Filters) (l : list Task) :
  Permutation
    (filteredTasks isSame (with_status f "All") l)
    (filteredTasks isSame (with_status f "Completed") l
     ++ filteredTasks isSame (with_status f "Pending") l)
  /\ (forall t,
        In t (filteredTasks isSame (with_status f "Completed") l) ->
        ~ In t (filteredTasks isSame (with_status f "Pending") l))
  /\ List.length (filteredTasks isSame (with_status f "All") l)
     = List.length (filteredTasks isSame (with_status f "Completed") l)
       + List.length (filteredTasks isSame (with_status f "Pending") l).
Proof.
  assert (Hor : forall t,
            shown isSame (with_status f "All") t
            = shown isSame (with_status f "Completed") t
              || shown isSame (with_status f "Pending") t).
  { intros t. unfold shown, with_status. simpl.
    destruct (isSame (get "createdAt" t) (selectedDate f)),
      (String.eqb (filterPriority f) "All"
       || strict_equal (get "priority" t) (Some (VStr (filterPriority f)))),
      (String.eqb (filterSubject f) "All"
       || strict_equal (get "subject" t) (Some (VStr (filterSubject f)))),
      (truthy (get "completed" t)); reflexivity. }
  assert (Hand : forall t,
            shown isSame (with_status f "Completed") t
            && shown isSame (with_status f "Pending") t = false).
  { intros t. unfold shown, with_status. simpl.
    destruct (isSame (get "createdAt" t) (selectedDate f)),
      (String.eqb (filterPriority f) "All"
       || strict_equal (get "priority" t) (Some (VStr (filterPriority f)))),
      (String.eqb (filterSubject f) "All"
       || strict_equal (get "subject" t) (Some (VStr (filterSubject f)))),
      (truthy (get "completed" t)); reflexivity. }
  pose proof (filter_split_perm _ _ _ l Hor Hand) as Hperm.
  split; [exact Hperm|]. split.
  - intros t Hc Hp. unfold filteredTasks in *.
    apply filter_In in Hc. apply filter_In in Hp.
    specialize (Hand t). destruct Hc as [_ Hc]. destruct Hp as [_ Hp].
    rewrite Hc, Hp in Hand. discriminate.
  - unfold filteredTasks. rewrite <- length_app.
    now apply Permutation_length.
Qed.

(** X23.  Every task shown was created on the selected day and is a task
    of the collection; so on a day without tasks (where the filter button
    is hidden) the list is empty under every filter. *)
Theorem filteredTasks_of_the_day (isSame : option value -> string -> bool)
    (f : Filters) (l : list Task) :
  (forall t, In t (filteredTasks isSame f l) ->
     In t l /\ isSame (get "createdAt" t) (selectedDate f) = true)
  /\ (hasTasksForSelectedDate isSame f l = false ->
      filteredTasks isSame f l = [])
  /\ (filterPriority f = "All" -> filterSubject f = "All" ->
      filterStatus f = "All" ->
      filteredTasks isSame f l
      = filter (fun t => isSame (get "createdAt" t) (selectedDate f)) l).
Proof.
  split; [|split].
  - intros t Hin. apply filter_In in Hin. destruct Hin as [Hin Hs].
    split; [assumption|]. unfold shown in Hs.
    destruct (isSame (get "createdAt" t) (selectedDate f));
      [reflexivity|discriminate].
  - intros Hnone. apply filter_nil_iff. intros t Hin.
    unfold hasTasksForSelectedDate in Hnone.
    assert (Hday : isSame (get "createdAt" t) (selectedDate f) = false).
    { destruct (isSame (get "createdAt" t) (selectedDate f)) eqn:E;
        [|reflexivity].
      assert (Hex : existsb
                      (fun task =>
                         isSame (get "createdAt" task) (selectedDate f)) l
                    = true).
      { apply existsb_exists. now exists t. }
      congruence. }
    unfold shown. now rewrite Hday.
  - intros Hp Hs Hst. unfold filteredTasks. apply filter_ext. intros t.
    unfold shown. rewrite Hp, Hs, Hst. simpl.
    now rewrite !andb_true_r.
Qed.

Example formatTime_samples :
  formatTime None = "Off"
  /\ formatTime (Some "08:30") = "8:30 AM"
  /\ formatTime (Some "00:05") = "12:05 AM"
  /\ formatTime (Some "12:00") = "12:00 PM"
  /\ formatTime (Some "23:59") = "11:59 PM"
  /\ formatTime (Some "soon") = "12:undefined AM"
  /\ timeStr 7 5 = "07:05".
Proof. repeat split. Qed.

(** X24.  A time picked in the time picker reads back in twelve-hour
    form: for hours below 24 and minutes below 60, [handleConfirm] stores
    five characters HH:MM, and [formatTime] shows the hour as 12, 1, ..., 11
    with the two-digit minutes and AM before noon, PM from noon on. *)
Theorem formatTime_of_picked_time (hours minutes : nat)
    (state : SettingsState) :
  hours < 24 -> minutes < 60 ->
  formatTime (notificationTime (handleConfirm (Some (hours, minutes)) state))
  = twelve_hour hours minutes
  /\ String.length (timeStr hours minutes) = 5.
Proof.
  intros Hh Hm. simpl.
  assert (Hall :
    forallb
      (fun h =>
         forallb
           (fun m =>
              String.eqb (formatTime (Some (timeStr h m))) (twelve_hour h m)
              && Nat.eqb (String.length (timeStr h m)) 5)
           (seq 0 60))
      (seq 0 24) = true) by (vm_compute; reflexivity).
  rewrite forallb_forall in Hall.
  assert (Hin : In hours (seq 0 24)) by (apply in_seq; lia).
  specialize (Hall hours Hin). rewrite forallb_forall in Hall.
  assert (Hin' : In minutes (seq 0 60)) by (apply in_seq; lia).
  specialize (Hall minutes Hin'). apply andb_true_iff in Hall.
  destruct Hall as [E1 E2]. split.
  - now apply String.eqb_eq.
  - now apply Nat.eqb_eq.
Qed.

Lemma formatTime_of_picked_time_witness :
  formatTime (notificationTime (handleConfirm (Some (19, 5)) defaultState))
  = "7:05 PM"
  /\ String.length (timeStr 19 5) = 5.
Proof.
  apply (@formatTime_of_picked_time 19 5 defaultState); lia.
Defined.

Example filteredTasks_sample :
  let l := [ stored_task "t1" "Read";
             set "completed" (VBool true) (stored_task "t2" "Write");
             set "createdAt" (VStr "2025-07-12T08:00:00.000Z")
               (stored_task "t3" "Rest") ] in
  let f := {| selectedDate := "2025-07-11"; filterPriority := "High";
              filterSubject := "All"; filterStatus := "Pending" |} in
  map (get "id") (filteredTasks same_day_prefix f l) = [Some (VStr "t1")]
  /\ map (get "id") (filteredTasks same_day_prefix (with_status f "All") l)
     = [Some (VStr "t1"); Some (VStr "t2")]
  /\ filteredTasks same_day_prefix (with_status f "Done") l = [].
Proof. repeat split. Qed.

Lemma nonempty_true (s : string) : nonempty s = true <-> s <> "".
Proof.
  unfold nonempty. rewrite negb_true_iff. split.
  - intros E ->. discriminate.
  - intros Hne. destruct (String.eqb s "") eqn:E; [|reflexivity].
    apply String.eqb_eq in E. contradiction.
Qed.

(** X25.  Through the subject form no empty and no duplicate label gets
    into the list: [handleAdd] either leaves the settings as they are, or
    puts the trimmed input, which is not empty and was not there, at the
    end and clears the input. *)
Theorem handleAdd_never_adds_empty_or_known (trim : string -> string)
    (newSubject : string) (state : SettingsState) :
  (SubjectManager.handleAdd trim newSubject state = (state, newSubject)
   \/ (trim newSubject <> ""
       /\ ~ In (trim newSubject) (subjects state)
       /\ subjects (fst (SubjectManager.handleAdd trim newSubject state))
          = subjects state ++ [trim newSubject]
       /\ snd (SubjectManager.handleAdd trim newSubject state) = ""))
  /\ (NoDup (subjects state) ->
      NoDup (subjects (fst (SubjectManager.handleAdd trim newSubject state))))
  /\ (~ In "" (subjects state) ->
      ~ In "" (subjects (fst (SubjectManager.handleAdd trim newSubject
                                state)))).
Proof.
  unfold SubjectManager.handleAdd.
  destruct (nonempty (trim newSubject)) eqn:En; simpl;
    [|split; [now left|tauto]].
  destruct (includes (subjects state) (trim newSubject)) eqn:Ei; simpl;
    [split; [now left|tauto]|].
  apply nonempty_true in En. pose proof Ei as Hnotin.
  apply includes_false in Hnotin. unfold addSubject. rewrite Ei. simpl.
  split; [right; tauto|]. split.
  - intros Hnd. now apply NoDup_snoc.
  - intros Hempty Hin. apply in_app_or in Hin.
    destruct Hin as [Hin|[E|[]]]; [contradiction|]. now apply En.
Qed.

(** X26.  Through the task form no task gets or keeps an empty text,
    subject or priority: where every task of the collection has all three
    filled in, so has every task after [handleAddTask], whether it adds,
    edits or refuses.  A form with a blank title, or without subject or
    priority, changes no task and raises the alert; the settings are never
    touched. *)
Theorem handleAddTask_keeps_tasks_filled (trim : string -> string)
    (H : Host) (f : TodoScreen.Form) (s : RootState) :
  (forall t, In t (tasks (todo s)) -> filled t) ->
  (forall t, In t (tasks (todo (fst (TodoScreen.handleAddTask trim H f s))))
             -> filled t)
  /\ settings (fst (TodoScreen.handleAddTask trim H f s)) = settings s
  /\ (trim (TodoScreen.title f) = "" \/ TodoScreen.subject f = ""
      \/ TodoScreen.priority f = "" ->
      fst (TodoScreen.handleAddTask trim H f s) = s
      /\ TodoScreen.alertVisible (snd (TodoScreen.handleAddTask trim H f s))
         = true).
Proof.
  intros Hfilled. unfold TodoScreen.handleAddTask.
  destruct (nonempty (trim (TodoScreen.title f))) eqn:Et; simpl;
    [|split; [assumption|split; [reflexivity|tauto]]].
  destruct (nonempty (TodoScreen.subject f)) eqn:Es; simpl;
    [|split; [assumption|split; [reflexivity|tauto]]].
  destruct (nonempty (TodoScreen.priority f)) eqn:Ep; simpl;
    [|split; [assumption|split; [reflexivity|tauto]]].
  apply nonempty_true in Et, Es, Ep.
  assert (Hadd : forall t,
            In t (tasks
                    (addTask (uuid H) (Date_toISOString H) (todo s)
                       {| add_text := trim (TodoScreen.title f);
                          add_subject := TodoScreen.subject f;
                          add_priority := TodoScreen.priority f;
                          add_createdAt := Some (TodoScreen.selectedDate f) |}))
            -> filled t).
  { intros t Hin. simpl in Hin. apply in_app_or in Hin.
    destruct Hin as [Hin|[<-|[]]]; [now apply Hfilled|].
    repeat split; eexists; (split; [reflexivity|assumption]). }
  split; [|split].
  - destruct (TodoScreen.editId f) as [id|]; [|exact Hadd].
    destruct (TodoScreen.isEditing f && nonempty id); [|exact Hadd].
    simpl. intros t Hin. apply In_update_first in Hin.
    destruct Hin as [Hin|[t0 [Hin ->]]]; [now apply Hfilled|].
    repeat split; eexists.
    + split; [|exact Et]. rewrite !get_set_other by discriminate.
      apply get_set_same.
    + split; [|exact Es]. apply get_set_same.
    + split; [|exact Ep]. rewrite get_set_other by discriminate.
      apply get_set_same.
  - destruct (TodoScreen.editId f) as [id|]; [|reflexivity].
    now destruct (TodoScreen.isEditing f && nonempty id).
  - intros [E|[E|E]]; contradiction.
Qed.

(** The task of the examples has its text, subject and priority. *)
Lemma stored_task_filled :
  forall t, In t (tasks (todo (store one_task_world))) -> filled t.
Proof.
  intros t [<-|[]].
  repeat split; eexists; (split; [reflexivity|discriminate]).
Defined.

Lemma handleAddTask_keeps_tasks_filled_witness :
  (forall t, In t (tasks (todo (store one_task_world))) -> filled t)
  /\ (forall t,
        In t (tasks (todo (fst (TodoScreen.handleAddTask trim_blanks
                                  known_backup_host
                                  {| TodoScreen.title := "  Revise optics ";
                                     TodoScreen.subject := "Physics";
                                     TodoScreen.priority := "Medium";
                                     TodoScreen.isEditing := false;
                                     TodoScreen.editId := None;
                                     TodoScreen.selectedDate := "2025-07-12";
                                     TodoScreen.modalVisible := true;
                                     TodoScreen.alertVisible := false |}
                                  (store one_task_world)))))
        -> filled t).
Proof.
  split; [exact stored_task_filled|].
  apply (@handleAddTask_keeps_tasks_filled trim_blanks known_backup_host
           {| TodoScreen.title := "  Revise optics ";
              TodoScreen.subject := "Physics";
              TodoScreen.priority := "Medium";
              TodoScreen.isEditing := false;
              TodoScreen.editId := None;
              TodoScreen.selectedDate := "2025-07-12";
              TodoScreen.modalVisible := true;
              TodoScreen.alertVisible := false |}
           (store one_task_world) stored_task_filled).
Defined.

Example handleAddTask_trims_and_dates :
  map (fun t => (get "text" t, get "createdAt" t))
    (tasks (todo (fst (TodoScreen.handleAddTask trim_blanks
                         known_backup_host
                         {| TodoScreen.title := "  Revise optics ";
                            TodoScreen.subject := "Physics";
                            TodoScreen.priority := "Medium";
                            TodoScreen.isEditing := false;
                            TodoScreen.editId := None;
                            TodoScreen.selectedDate := "2025-07-12";
                            TodoScreen.modalVisible := true;
                            TodoScreen.alertVisible := false |}
                         (store one_task_world)))))
  = [ (Some (VStr "Read"), Some (VStr "2025-07-11T08:00:00.000Z"));
      (Some (VStr "Revise optics"), Some (VStr "2025-07-12")) ].
Proof. reflexivity. Qed.

(* ====================================================================== *)
(** * The weeks of the calendar strip *)
(* ====================================================================== *)

Lemma In_week_from (start d : Z) :
  In d (week_from start) <-> (start <= d < start + 7)%Z.
Proof.
  unfold week_from. rewrite in_map_iff. split.
  - intros [j [<- Hj]]. apply in_seq in Hj. lia.
  - intros Hd. exists (Z.to_nat (d - start)). split; [lia|].
    apply in_seq. lia.
Qed.

Lemma week_has_day (today start : Z) :
  existsb (Z.eqb today) (week_from start) = true
  <-> (start <= today < start + 7)%Z.
Proof.
  rewrite existsb_exists, <- In_week_from. split.
  - intros [d [Hin E]]. apply Z.eqb_eq in E. now subst.
  - intros Hin. exists today. split; [assumption|apply Z.eqb_refl].
Qed.

Lemma weeks_from_S (start : Z) (n : nat) :
  weeks_from start (S n)
  = week_from start :: weeks_from (start + 7)%Z n.
Proof.
  unfold weeks_from. simpl seq. rewrite <- seq_shift. cbn [map].
  rewrite map_map.
  f_equal; [f_equal; lia|]. apply map_ext. intros i. f_equal. lia.
Qed.

Lemma weeks_from_app (start : Z) (n m : nat) :
  weeks_from start (n + m)
  = weeks_from start n ++ weeks_from (start + 7 * Z.of_nat n)%Z m.
Proof.
  revert start. induction n as [|n IH]; intros start.
  - simpl. f_equal. lia.
  - simpl Nat.add. rewrite !weeks_from_S, IH, <- app_comm_cons.
    do 3 f_equal. lia.
Qed.

Lemma Monday_startOf (d : Z) : (d mod 7 = 0)%Z -> startOf_isoWeek d = d.
Proof. unfold startOf_isoWeek. lia. Qed.

Lemma startOf_isoWeek_spec (d : Z) :
  (startOf_isoWeek d mod 7 = 0
   /\ startOf_isoWeek d <= d < startOf_isoWeek d + 7)%Z.
Proof.
  unfold startOf_isoWeek. pose proof (Z.mod_pos_bound d 7 eq_refl).
  split; [|lia].
  rewrite Zminus_mod, Zmod_mod, Z.sub_diag. reflexivity.
Qed.

Lemma findIndex_in_weeks_from (today start : Z) (k n : nat) :
  k < n ->
  (start + 7 * Z.of_nat k <= today < start + 7 * Z.of_nat k + 7)%Z ->
  findIndex_of_day today (weeks_from start n) = Some k.
Proof.
  revert start n. induction k as [|k IH]; intros start n Hk Hin;
    destruct n as [|n]; try lia; rewrite weeks_from_S;
    cbn [findIndex_of_day].
  - rewrite (proj2 (week_has_day today start)); [reflexivity|lia].
  - destruct (existsb (Z.eqb today) (week_from start)) eqn:E.
    + apply week_has_day in E. lia.
    + rewrite (IH (start + 7)%Z n); [reflexivity|lia|lia].
Qed.

(** X27.  On mount the strip holds five weeks in a row, each of seven
    days in a row from a Monday, and today lies in the middle one: the
    index found for today is 2. *)
Theorem initial_weeks_centre_today (today : Z) :
  initial_weeks today = weeks_from (startOf_isoWeek today - 14)%Z 5
  /\ ((startOf_isoWeek today - 14) mod 7 = 0)%Z
  /\ findIndex_of_day today (initial_weeks today) = Some 2
  /\ In today (nth 2 (initial_weeks today) [])
  /\ (forall week d, In week (initial_weeks today) -> In d week ->
        (startOf_isoWeek today - 14 <= d < startOf_isoWeek today + 21)%Z).
Proof.
  destruct (startOf_isoWeek_spec today) as [Hmod Hin].
  assert (Hweeks : initial_weeks today
                   = weeks_from (startOf_isoWeek today - 14)%Z 5).
  { unfold initial_weeks, weeks_from. simpl.
    repeat (f_equal; try lia). }
  split; [exact Hweeks|]. split.
  { rewrite Zminus_mod, Hmod. reflexivity. }
  split.
  { rewrite Hweeks. apply findIndex_in_weeks_from; lia. }
  split.
  { unfold initial_weeks. simpl nth. apply In_week_from. lia. }
  intros week d Hweek Hd. unfold initial_weeks in Hweek. simpl in Hweek.
  destruct Hweek as [<-|[<-|[<-|[<-|[<-|[]]]]]];
    apply In_week_from in Hd; lia.
Qed.

Lemma week_from_head (start : Z) :
  exists rest, week_from start = start :: rest.
Proof.
  unfold week_from. cbn [seq map]. eexists. f_equal. lia.
Qed.

Lemma loadMoreWeeks_left (start : Z) (rest : list (list Z)) (i : nat) :
  (start mod 7 = 0)%Z ->
  loadMoreWeeks left_side (week_from start :: rest) i
  = Some ([week_from (start - 14)%Z; week_from (start - 7)%Z]
          ++ week_from start :: rest, i + 2).
Proof.
  intros Hmod. destruct (week_from_head start) as [days E].
  unfold loadMoreWeeks. rewrite E.
  replace (start - 2 * 7)%Z with (start - 14)%Z by lia.
  rewrite Monday_startOf.
  - replace (start - 14 + 7)%Z with (start - 7)%Z by lia. reflexivity.
  - rewrite Zminus_mod, Hmod. reflexivity.
Qed.

Lemma loadMoreWeeks_right (start : Z) (weeks : list (list Z)) (i : nat) :
  (start mod 7 = 0)%Z ->
  loadMoreWeeks right_side (weeks ++ [week_from start]) i
  = Some ((weeks ++ [week_from start])
          ++ [week_from (start + 7)%Z; week_from (start + 14)%Z], i).
Proof.
  intros Hmod. destruct (week_from_head start) as [days E].
  unfold loadMoreWeeks. rewrite last_last, E.
  rewrite Monday_startOf.
  - replace (start + 7 + 7)%Z with (start + 14)%Z by lia. reflexivity.
  - rewrite <- (Z.mul_1_l 7) at 1. rewrite Z.mod_add by lia. exact Hmod.
Qed.

Lemma weeks_from_two (start : Z) :
  weeks_from start 2 = [week_from start; week_from (start + 7)%Z].
Proof.
  rewrite !weeks_from_S. reflexivity.
Qed.

(** X28.  [loadMoreWeeks] keeps the strip in one piece.  On weeks in a
    row from a Monday it never fails; to the left it puts the two weeks
    before in front and moves the index by two, to the right it puts the
    two weeks after behind; either way the weeks are again in a row, two
    more than before, and the index points at the week it pointed at. *)
Theorem loadMoreWeeks_extends (direction : Direction) (start : Z)
    (n currentIndex : nat) :
  (start mod 7 = 0)%Z -> 0 < n -> currentIndex < n ->
  exists weeks' index',
    loadMoreWeeks direction (weeks_from start n) currentIndex
    = Some (weeks', index')
    /\ weeks'
       = weeks_from
           (match direction with
            | left_side => start - 14
            | right_side => start
            end)%Z (n + 2)
    /\ nth index' weeks' [] = nth currentIndex (weeks_from start n) [].
Proof.
  intros Hmod Hn Hi. destruct n as [|n]; [lia|]. destruct direction.
  - assert (Hnew : weeks_from (start - 14)%Z (S n + 2)
                   = [week_from (start - 14)%Z; week_from (start - 7)%Z]
                     ++ weeks_from start (S n)).
    { rewrite (Nat.add_comm (S n) 2), weeks_from_app, weeks_from_two.
      do 2 f_equal; [do 2 f_equal|]; lia. }
    exists (weeks_from (start - 14)%Z (S n + 2)), (currentIndex + 2).
    split; [|split; [reflexivity|]].
    + rewrite Hnew, weeks_from_S. now apply loadMoreWeeks_left.
    + rewrite Hnew, (Nat.add_comm currentIndex 2). reflexivity.
  - assert (Hsplit : weeks_from start (S n)
                     = weeks_from start n
                       ++ [week_from (start + 7 * Z.of_nat n)%Z]).
    { replace (S n) with (n + 1) by lia. rewrite weeks_from_app.
      f_equal. rewrite weeks_from_S. reflexivity. }
    assert (Hmod' : ((start + 7 * Z.of_nat n) mod 7 = 0)%Z).
    { rewrite Z.mul_comm, Z.mod_add by lia. exact Hmod. }
    exists (weeks_from start (S n + 2)), currentIndex.
    split; [|split; [reflexivity|]].
    + rewrite weeks_from_app, weeks_from_two, Hsplit.
      rewrite (@loadMoreWeeks_right _ _ _ Hmod').
      replace (start + 7 * Z.of_nat n + 7)%Z
        with (start + 7 * Z.of_nat (S n))%Z by lia.
      replace (start + 7 * Z.of_nat n + 14)%Z
        with (start + 7 * Z.of_nat (S n) + 7)%Z by lia.
      reflexivity.
    + rewrite weeks_from_app. apply app_nth1.
      unfold weeks_from. rewrite length_map, length_seq. exact Hi.
Qed.

Lemma loadMoreWeeks_extends_witness :
  exists weeks' index',
    loadMoreWeeks left_side (weeks_from 700 5) 1 = Some (weeks', index')
    /\ weeks' = weeks_from (700 - 14) (5 + 2)
    /\ nth index' weeks' [] = nth 1 (weeks_from 700 5) [].
Proof.
  apply (@loadMoreWeeks_extends left_side 700%Z 5 1);
    [reflexivity|lia|lia].
Defined.
